(** * The file-backed retry queue of the xAPI bridge

    A shallow embedding of [xapi_bridge/retry_queue.py] (the JSONL queue
    [RetryQueue] and the daily [RetryQueueWorker]) and of the default
    [is_not_found] of [xapi_bridge/lrs_backends/base.py], followed by the
    properties of the queue store, the sink and the dispatch worker. *)

From Stdlib Require Import ZArith List String Ascii Bool Lia Permutation.
From Stdlib Require Import DecimalString QArith Qround.
Import ListNotations.

Local Open Scope Z_scope.
Set Warnings "-register-all".

(** ** Python values and the builtins the queue relies on *)

Module Py.

(** A Python float as [json.loads] may produce it: only its exact value is
    needed ([int()] truncates it, [bool()] compares it with zero). *)
Inductive pyfloat :=
| FFinite (num : Z) (den : positive)
| FInf (negative : bool)
| FNaN.

(** The values [json.loads] returns.  An object is a [dict]; its fields are
    kept in order, with distinct keys, and looked up by key. *)
Inductive json :=
| JNull
| JBool (b : bool)
| JInt (z : Z)
| JFloat (f : pyfloat)
| JStr (s : string)
| JList (items : list json)
| JObj (fields : list (string * json)).

Inductive pyexn :=
| AttributeError
| TypeError
| ValueError
| OverflowError
| RecursionError
| UnicodeEncodeError.

(** A computation that returns or raises. *)
Inductive outcome (A : Type) :=
| Ok (a : A)
| Raise (e : pyexn).
Arguments Ok {A} a.
Arguments Raise {A} e.

Definition bind {A B : Type} (m : outcome A) (k : A -> outcome B) : outcome B :=
  match m with
  | Ok a => k a
  | Raise e => Raise e
  end.

Notation "'let!' x ':=' m 'in' k" := (bind m (fun x => k))
  (at level 10, x name, m at level 100, k at level 200).

Fixpoint assoc_get (key : string) (fields : list (string * json)) : option json :=
  match fields with
  | [] => None
  | (k, v) :: rest => if String.eqb k key then Some v else assoc_get key rest
  end.

(** [rec.get(key, default)]: only a dict has the method. *)
Definition get (rec : json) (key : string) (default : json) : outcome json :=
  match rec with
  | JObj fields =>
      Ok (match assoc_get key fields with Some v => v | None => default end)
  | _ => Raise AttributeError
  end.

(** Truth value of a value in a condition. *)
Definition truthy (v : json) : bool :=
  match v with
  | JNull => false
  | JBool b => b
  | JInt z => negb (z =? 0)
  | JFloat (FFinite n _) => negb (n =? 0)
  | JFloat _ => true
  | JStr s => negb (String.eqb s EmptyString)
  | JList items => match items with [] => false | _ => true end
  | JObj fields => match fields with [] => false | _ => true end
  end.

(** *** Text

    A Python [str] is held as the bytes of its UTF-8 encoding, which is how
    a string literal of this file is read.  A lone surrogate, which a [str]
    may hold (from an escape in a JSON text) and UTF-8 does not encode, is
    held as the three bytes the same scheme gives it. *)

(** What stands for a byte sequence that encodes no character. *)
Definition replacement : N := 65533.

(** The code points of a byte sequence; [need] continuation bytes are
    awaited for the code point whose first bits are [acc]. *)
Fixpoint decode (need : nat) (acc : N) (bytes : list ascii) : list N :=
  match bytes with
  | [] => match need with O => [] | S _ => [replacement] end
  | b :: rest =>
      let n := N_of_ascii b in
      match need with
      | O =>
          if (n <? 128)%N then n :: decode 0 0%N rest
          else if ((192 <=? n) && (n <? 224))%N then decode 1 (n - 192)%N rest
          else if ((224 <=? n) && (n <? 240))%N then decode 2 (n - 224)%N rest
          else if ((240 <=? n) && (n <? 248))%N then decode 3 (n - 240)%N rest
          else replacement :: decode 0 0%N rest
      | S need' =>
          if ((128 <=? n) && (n <? 192))%N
          then let acc := (64 * acc + (n - 128))%N in
               match need' with
               | O => acc :: decode 0 0%N rest
               | S _ => decode need' acc rest
               end
          else replacement :: decode 0 0%N rest
      end
  end.

Definition code_points (s : string) : list N :=
  decode 0 0%N (list_ascii_of_string s).

(** The bytes of one code point. *)
Definition encode_point (cp : N) : list ascii :=
  let byte n := ascii_of_N n in
  let low n := (128 + n mod 64)%N in
  (if cp <? 128 then [byte cp]
   else if cp <? 2048 then [byte (192 + cp / 64); byte (low cp)]
   else if cp <? 65536
   then [byte (224 + cp / 4096); byte (low (cp / 64)); byte (low cp)]
   else [byte (240 + cp / 262144); byte (low (cp / 4096));
         byte (low (cp / 64)); byte (low cp)])%N.

(** The text made of the given code points. *)
Definition text_of (cps : list N) : string :=
  string_of_list_ascii (flat_map encode_point cps).

Definition is_surrogate (cp : N) : bool :=
  ((55296 <=? cp) && (cp <=? 57343))%N.

(** Whether [text.encode('utf-8')] returns: a lone surrogate makes it raise
    [UnicodeEncodeError]. *)
Definition encodable (text : string) : bool :=
  forallb (fun cp => negb (is_surrogate cp)) (code_points text).

(** *** [int] of a string

    [int(s)] first turns every character above the ASCII range into a
    space when it is white space, into its ASCII digit when it has a
    decimal value, and gives up on any other; it then reads the result as
    C reads a number. *)

(** White space as [int] sees it: the white space of C and, above the
    ASCII range, the white space of Unicode.  The separators U+001C to
    U+001F, which [str.isspace] accepts, are not skipped. *)
Definition is_space (cp : N) : bool :=
  (((9 <=? cp) && (cp <=? 13)) || (cp =? 32)
   || (cp =? 133) || (cp =? 160) || (cp =? 5760)
   || ((8192 <=? cp) && (cp <=? 8202))
   || (cp =? 8232) || (cp =? 8233) || (cp =? 8239) || (cp =? 8287)
   || (cp =? 12288))%N.

(** The code points of the digit zero of every script: the nine that follow
    each are its digits one to nine (the characters with a decimal value in
    the Unicode database of CPython 3.11, Unicode 14.0). *)
Definition decimal_zeros : list N :=
  [48; 1632; 1776; 1984; 2406; 2534; 2662; 2790; 2918; 3046; 3174;
   3302; 3430; 3558; 3664; 3792; 3872; 4160; 4240; 6112; 6160; 6470;
   6608; 6784; 6800; 6992; 7088; 7232; 7248; 42528; 43216; 43264;
   43472; 43504; 43600; 44016; 65296; 66720; 68912; 69734; 69872;
   69942; 70096; 70384; 70736; 70864; 71248; 71360; 71472; 71904;
   72016; 72784; 73040; 73120; 92768; 92864; 93008; 120782; 120792;
   120802; 120812; 120822; 123200; 123632; 125264; 130032]%N.

(** The decimal value of a character, if it has one. *)
Definition digit_val (cp : N) : option Z :=
  match find (fun zero => ((zero <=? cp) && (cp <? zero + 10))%N) decimal_zeros with
  | Some zero => Some (Z.of_N (cp - zero))
  | None => None
  end.

Definition is_digit (cp : N) : bool :=
  match digit_val cp with
  | Some _ => true
  | None => false
  end.

Definition underscore : N := 95.
Definition plus_sign : N := 43.
Definition minus_sign : N := 45.

Fixpoint lstrip (cs : list N) : list N :=
  match cs with
  | c :: rest => if is_space c then lstrip rest else cs
  | [] => []
  end.

Definition strip (cs : list N) : list N :=
  rev (lstrip (rev (lstrip cs))).

(** Decimal digits, a single underscore allowed between two digits. *)
Fixpoint digits_value (acc : Z) (after_digit : bool) (cs : list N) : option Z :=
  match cs with
  | [] => if after_digit then Some acc else None
  | c :: rest =>
      if (c =? underscore)%N
      then (if after_digit then digits_value acc false rest else None)
      else match digit_val c with
           | Some d => digits_value (10 * acc + d) true rest
           | None => None
           end
  end.

(** [sys.get_int_max_str_digits()], as the interpreter starts with it: a
    text of more digits is refused. *)
Definition int_max_str_digits : Z := 4300.

(** [int(s)] for a string, base ten; [None] stands for [ValueError]. *)
Definition int_of_str (s : string) : option Z :=
  let cs := strip (code_points s) in
  if int_max_str_digits <? Z.of_nat (List.length (filter is_digit cs)) then None
  else
    match cs with
    | c :: rest =>
        if (c =? minus_sign)%N then option_map Z.opp (digits_value 0 false rest)
        else if (c =? plus_sign)%N then digits_value 0 false rest
        else digits_value 0 false (c :: rest)
    | [] => None
    end.

(** [int(v)]. *)
Definition int (v : json) : outcome Z :=
  match v with
  | JInt z => Ok z
  | JBool b => Ok (if b then 1 else 0)
  | JFloat (FFinite n d) => Ok (Z.quot n (Zpos d))
  | JFloat (FInf _) => Raise OverflowError
  | JFloat FNaN => Raise ValueError
  | JStr s => match int_of_str s with Some z => Ok z | None => Raise ValueError end
  | JNull | JList _ | JObj _ => Raise TypeError
  end.

(** [x or d] for an optional integer: [None] and [0] are both false. *)
Definition or_int (x : option Z) (d : Z) : Z :=
  match x with
  | Some z => if z =? 0 then d else z
  | None => d
  end.

(** Truth value of an optional string setting ([None] and [''] are false). *)
Definition str_set (x : option string) : bool :=
  match x with
  | Some s => negb (String.eqb s EmptyString)
  | None => false
  end.

End Py.

Import Py.

(** ** Settings *)

(** The attributes of [settings] the queue reads with [getattr]; [None] is
    an attribute that is not set. *)
Record Settings := mkSettings {
  RETRY_DAILY_AT : option string;
  RETRY_DELAY_SECONDS : option Z;
  RETRY_SINK_FILE : option string
}.

(** ** The queue store *)

Module RetryQueue.

(** One line of the queue file, as [line.strip()] and [json.loads] see it:
    empty after stripping, text that is not JSON ([json.loads] raises
    [JSONDecodeError]), text on which [json.loads] raises another exception
    (a [ValueError] for an integer literal of more digits than [int] takes,
    a [RecursionError] for a nesting too deep), or a JSON value.
    [enqueue] writes [json.dumps(record)], which reads back as the record. *)
Inductive stored_line :=
| Blank
| Broken (raw : string)
| Unloadable (raw : string) (e : pyexn)
| Parsed (v : json).

(** The queue file: [None] when the path does not exist. *)
Definition queue_file := option (list stored_line).

Definition record (content : json) (ready_at : Z) : json :=
  JObj [("content"%string, content); ("ready_at"%string, JInt ready_at)].

(** [ready_at] as [enqueue] computes it, [now] being [int(time.time())]. *)
Definition enqueue_ready_at (cfg : Settings) (now : Z) (delay_seconds : option Z) : Z :=
  if str_set (RETRY_DAILY_AT cfg) then now
  else
    let retry_delay := or_int (RETRY_DELAY_SECONDS cfg) 0 in
    now + or_int delay_seconds retry_delay.

Definition append_line (q : queue_file) (line : stored_line) : queue_file :=
  match q with
  | Some lines => Some (lines ++ [line])
  | None => Some [line]
  end.

(** [enqueue]: the line of the record is appended to the file; printing
    the record and writing its line are taken to succeed. *)
Definition enqueue (cfg : Settings) (now : Z) (content_json : json)
    (delay_seconds : option Z) (q : queue_file) : queue_file :=
  let ready_at := enqueue_ready_at cfg now delay_seconds in
  append_line q (Parsed (record content_json ready_at)).

(** The loop of [read_ready] over the lines of the file: [except Exception]
    takes every exception of [json.loads]. *)
Fixpoint scan (now : Z) (lines : list stored_line)
    (ready : list json) (remaining_lines : list stored_line)
  : outcome (list json * list stored_line) :=
  match lines with
  | [] => Ok (ready, remaining_lines)
  | line :: rest =>
      match line with
      | Blank => scan now rest ready remaining_lines
      | Broken _ => scan now rest ready remaining_lines
      | Unloadable _ _ => scan now rest ready remaining_lines
      | Parsed rec =>
          let! at_field := get rec "ready_at" (JInt 0) in
          let! at_int := int at_field in
          if at_int <=? now then
            let! content := get rec "content" JNull in
            if truthy content
            then scan now rest (ready ++ [content]) remaining_lines
            else scan now rest ready (remaining_lines ++ [line])
          else scan now rest ready (remaining_lines ++ [line])
      end
  end.

(** [read_ready]: the returned contents (or the exception that escapes) and
    the file afterwards.  The file is rewritten only after the loop, so a
    raise leaves it as it was. *)
Definition read_ready (now : Z) (q : queue_file) : outcome (list json) * queue_file :=
  match q with
  | None => (Ok [], None)
  | Some lines =>
      match scan now lines [] [] with
      | Ok (ready, remaining_lines) => (Ok ready, Some remaining_lines)
      | Raise e => (Raise e, Some lines)
      end
  end.

End RetryQueue.

(** ** The dispatch worker *)

Module Worker.

Import RetryQueue.

(** [LRSBackendBase]: the one method the worker calls.  The status is
    [getattr(response.response, 'status', None)]. *)
Class LRSBackend := {
  is_not_found : option Z -> string -> bool
}.

(** The method as the base class defines it: [status_code == 404]. *)
Definition LRSBackendBase : LRSBackend :=
  {| is_not_found := fun status_code _ =>
       match status_code with
       | Some code => code =? 404
       | None => false
       end |}.

(** What [getheader('Retry-After')] amounts to on [response.response]. *)
Inductive header_access :=
| NoGetheader
| GetheaderRaises
| Header (value : option string).

(** The parts of a tincan [LRSResponse] the worker reads. *)
Record LRSResponse := mkResponse {
  success : bool;
  status : option Z;
  retry_after : header_access;
  data : string
}.

(** Exceptions of [save_statements]: the four network errors caught first
    (connection refused, connection reset, broken pipe, timeout), or any
    other [Exception]. *)
Inductive send_error := NetworkError | OtherError.

Inductive send_result :=
| Responded (response : LRSResponse)
| SendRaised (err : send_error).

Inductive log_event :=
| InfoEnqueued (ready_at : Z)
| InfoSinkSaved
| InfoResent
| ErrorResend (status : option Z) (data : string)
| WarningNetwork
| ErrorSend
| ErrorBatch (e : pyexn)
| ErrorDailyAtFormat
| ExceptionWorker (e : pyexn).

(** Where the loop of [run] goes after a cycle: back to the wait for the
    next window, or to the one-minute pause after an exception. *)
Inductive phase := WaitingForWindow | Backoff.

Definition line_feed : string := String (ascii_of_nat 10) EmptyString.

(** [status in {408, 429, 500, 502, 503, 504}]. *)
Definition retryable_status (status : option Z) : bool :=
  match status with
  | Some code =>
      (code =? 408) || (code =? 429) || (code =? 500) ||
      (code =? 502) || (code =? 503) || (code =? 504)
  | None => false
  end.

(** [delay_seconds] as taken from the [Retry-After] header. *)
Definition retry_after_delay (response : LRSResponse) : option Z :=
  match retry_after response with
  | Header (Some ra) =>
      if String.eqb ra EmptyString then None else int_of_str ra
  | Header None => None
  | NoGetheader => None
  | GetheaderRaises => None
  end.

(** Seconds the loop of [run] sleeps before the window; [target] is the
    local time HH:MM of the current day and [now_ts] the current time. *)
Definition sleep_for (target now_ts : Z) : Z :=
  let target := if target <=? now_ts then target + 24 * 60 * 60 else target in
  Z.max 0 (target - now_ts).

Section WithEnvironment.

(** The world outside the process: the wall clock and the collector behind
    [client.lrs_publisher.lrs], and the [json] module. *)
Context {Env : Type}.
Variable time_time : Env -> Z.
Variable save_statements : json -> Env -> send_result * Env.
Variable json_loads : string -> option json.
Variable json_dumps : json -> string.
Context {backend : LRSBackend}.

Record world := mkWorld {
  queue : queue_file;
  sink : string;
  env : Env;
  log : list log_event
}.

Definition set_queue (w : world) (q : queue_file) : world :=
  mkWorld q (sink w) (env w) (log w).
Definition set_env (w : world) (e : Env) : world :=
  mkWorld (queue w) (sink w) e (log w).
Definition write_sink (w : world) (text : string) : world :=
  mkWorld (queue w) (sink w ++ text) (env w) (log w).
Definition logger (w : world) (ev : log_event) : world :=
  mkWorld (queue w) (sink w) (env w) (log w ++ [ev]).

(** [json.loads(content_json)]: a [TypeError] unless the argument is a
    string, a decode error (a [ValueError]) when the text is not JSON. *)
Definition loads (content_json : json) : outcome json :=
  match content_json with
  | JStr text =>
      match json_loads text with
      | Some parsed => Ok parsed
      | None => Raise ValueError
      end
  | _ => Raise TypeError
  end.

(** [f.write(text)] on a file opened with [encoding='utf-8']; [written] is
    what the block has written so far.  The text is encoded first, and
    nothing of it is written when that raises. *)
Definition write (written : string) (text : string) : outcome string :=
  if encodable text then Ok (written ++ text)%string
  else Raise UnicodeEncodeError.

(** [for stmt in parsed: f.write(json.dumps(stmt) + '\n')]: the text
    written, and the exception of the write that stopped the loop, if any. *)
Fixpoint write_each (written : string) (items : list json)
  : string * option pyexn :=
  match items with
  | [] => (written, None)
  | stmt :: rest =>
      match write written (json_dumps stmt ++ line_feed) with
      | Ok written => write_each written rest
      | Raise e => (written, Some e)
      end
  end.

(** The [with] block of the sink branch for one content: the text it
    appends to the sink, and the exception that leaves it, if any.  The
    [try] covers the parse and the writes: whatever raises there, the
    handler writes the content as it is after what is already written; what
    the handler itself raises leaves the block. *)
Definition sink_text (content_json : json) : string * option pyexn :=
  let (written, raised) :=
    match loads content_json with
    | Ok (JList items) => write_each EmptyString items
    | Ok parsed => write_each EmptyString [parsed]
    | Raise e => (EmptyString, Some e)
    end in
  match raised with
  | None => (written, None)
  | Some _ =>
      match content_json with
      | JStr text =>
          match write written (text ++ line_feed) with
          | Ok written => (written, None)
          | Raise e => (written, Some e)
          end
      | _ => (written, Some TypeError)
      end
  end.

(** [RetryQueue._save_to_sink], on the text of the sink file: the text
    afterwards and the exception that escapes, if any. *)
Definition _save_to_sink (cfg : Settings) (content_json : json) (sink_file : string)
  : string * option pyexn :=
  if str_set (RETRY_SINK_FILE cfg)
  then let (text, raised) := sink_text content_json in
       ((sink_file ++ text)%string, raised)
  else (sink_file, None).

(** [self.queue.enqueue(...)] with its clock reading and its log line. *)
Definition requeue (cfg : Settings) (content_json : json) (delay_seconds : option Z)
    (w : world) : world :=
  let now := time_time (env w) in
  logger (set_queue w (enqueue cfg now content_json delay_seconds (queue w)))
         (InfoEnqueued (enqueue_ready_at cfg now delay_seconds)).

(** One turn of the loop of [_process_batch]. *)
Definition process_one (cfg : Settings) (content_json : json) (st : world * bool)
  : world * bool :=
  let (w, all_ok) := st in
  if str_set (RETRY_SINK_FILE cfg) then
    let (text, raised) := sink_text content_json in
    let w := write_sink w text in
    match raised with
    | None => (logger w InfoSinkSaved, all_ok)
    | Some e => (logger w (ErrorBatch e), false)
    end
  else
    match loads content_json with
    | Raise e => (logger w (ErrorBatch e), false)
    | Ok payload =>
        let (result, env') := save_statements payload (env w) in
        let w := set_env w env' in
        match result with
        | Responded response =>
            if negb (success response) then
              if is_not_found (status response) (data response)
                 || retryable_status (status response)
              then (requeue cfg content_json (retry_after_delay response) w, false)
              else (logger w (ErrorResend (status response) (data response)), false)
            else (logger w InfoResent, all_ok)
        | SendRaised NetworkError =>
            (requeue cfg content_json None (logger w WarningNetwork), false)
        | SendRaised OtherError =>
            (requeue cfg content_json None (logger w ErrorSend), false)
        end
    end.

Definition _process_batch (cfg : Settings) (contents : list json) (w : world)
  : world * bool :=
  fold_left (fun st content_json => process_one cfg content_json st) contents (w, true).

(** The body of the loop of [run] once the window has come. *)
Definition cycle (cfg : Settings) (w : world) : world * phase :=
  let (result, q) := read_ready (time_time (env w)) (queue w) in
  let w := set_queue w q in
  match result with
  | Raise e => (logger w (ExceptionWorker e), Backoff)
  | Ok ready_contents =>
      match ready_contents with
      | [] => (w, WaitingForWindow)
      | _ =>
          let first := firstn 1 ready_contents in
          let rest := skipn 1 ready_contents in
          let (w, ok) := _process_batch cfg first w in
          match rest with
          | [] => (w, WaitingForWindow)
          | _ =>
              if ok then (fst (_process_batch cfg rest w), WaitingForWindow)
              else (fold_left (fun w content_json => requeue cfg content_json None w) rest w,
                    WaitingForWindow)
          end
      end
  end.

End WithEnvironment.

End Worker.

(** ** Reading a queue file line by line

    What the loop of [read_ready] decides for one line, as functions of the
    line: they are related to [scan] by [QueueFacts.scan_view] below. *)

Module View.

Import RetryQueue.

Definition lines_of (q : queue_file) : list stored_line :=
  match q with
  | Some lines => lines
  | None => []
  end.

(** A stored record is a line that holds a JSON value. *)
Definition is_record (line : stored_line) : bool :=
  match line with
  | Parsed _ => true
  | _ => false
  end.

Definition is_broken (line : stored_line) : bool :=
  match line with
  | Broken _ | Unloadable _ _ => true
  | _ => false
  end.

Definition records (lines : list stored_line) : list stored_line :=
  filter is_record lines.

(** The exception a line makes [read_ready] raise, if any. *)
Definition crash (line : stored_line) : option pyexn :=
  match line with
  | Parsed rec =>
      match get rec "ready_at" (JInt 0) with
      | Raise e => Some e
      | Ok at_field =>
          match int at_field with
          | Raise e => Some e
          | Ok _ => None
          end
      end
  | _ => None
  end.

Fixpoint first_crash (lines : list stored_line) : option pyexn :=
  match lines with
  | [] => None
  | line :: rest =>
      match crash line with
      | Some e => Some e
      | None => first_crash rest
      end
  end.

(** [ready_at] of a record, read as the loop reads it (0 when absent). *)
Definition ready_at_of (line : stored_line) : option Z :=
  match line with
  | Parsed (JObj fields) =>
      match int (match assoc_get "ready_at" fields with
                 | Some v => v
                 | None => JInt 0
                 end) with
      | Ok t => Some t
      | Raise _ => None
      end
  | _ => None
  end.

(** [rec.get('content')] of a record. *)
Definition content_of (line : stored_line) : json :=
  match line with
  | Parsed (JObj fields) =>
      match assoc_get "content" fields with
      | Some c => c
      | None => JNull
      end
  | _ => JNull
  end.

(** A well-formed record: a JSON object whose [ready_at] reads as an integer. *)
Definition well_formed (line : stored_line) : bool :=
  match ready_at_of line with
  | Some _ => true
  | None => false
  end.

(** A line the loop can handle: not a record at all, or a well-formed one. *)
Definition readable (line : stored_line) : bool :=
  negb (is_record line) || well_formed line.

(** [ready_at <= now]. *)
Definition due (now : Z) (line : stored_line) : bool :=
  match ready_at_of line with
  | Some t => t <=? now
  | None => false
  end.

Definition has_content (line : stored_line) : bool :=
  truthy (content_of line).

(** The test of the loop: due and with a content that is true. *)
Definition ready (now : Z) (line : stored_line) : bool :=
  due now line && has_content line.

Definition waiting (now : Z) (line : stored_line) : bool :=
  well_formed line && negb (ready now line).

(** The text of a list of lines, each ended by a line feed. *)
Definition unlines (entries : list string) : string :=
  String.concat EmptyString (map (fun e => e ++ Worker.line_feed)%string entries).

(** The lines a reader of a text file sees: the text is cut after each line
    feed; [current] is the line being read. *)
Fixpoint text_lines_from (current : string) (text : string) : list string :=
  match text with
  | EmptyString =>
      if String.eqb current EmptyString then [] else [current]
  | String c rest =>
      if Ascii.eqb c (ascii_of_nat 10)
      then current :: text_lines_from EmptyString rest
      else text_lines_from (current ++ String c EmptyString) rest
  end.

Definition text_lines (text : string) : list string :=
  text_lines_from EmptyString text.

(** A text without a line break of its own (line feed or carriage return). *)
Fixpoint single_line (text : string) : bool :=
  match text with
  | EmptyString => true
  | String c rest =>
      negb (Ascii.eqb c (ascii_of_nat 10)) && negb (Ascii.eqb c (ascii_of_nat 13))
      && single_line rest
  end.

(** A history of calls on the queue store. *)
Inductive queue_op :=
| OpEnqueue (cfg : Settings) (now : Z) (content_json : json) (delay_seconds : option Z)
| OpReadReady (now : Z).

Definition apply_op (q : queue_file) (op : queue_op) : queue_file :=
  match op with
  | OpEnqueue cfg now content_json delay_seconds =>
      enqueue cfg now content_json delay_seconds q
  | OpReadReady now => snd (read_ready now q)
  end.

Definition apply_ops (ops : list queue_op) (q : queue_file) : queue_file :=
  fold_left apply_op ops q.

End View.

(** ** Inputs of the examples *)

Module Examples.

Import RetryQueue Worker.

Definition abc_file : list stored_line :=
  [Parsed (record (JStr "A") 0); Parsed (record (JStr "B") 5);
   Parsed (record (JStr "C") 10)].

Definition empty_content_file : list stored_line :=
  [Parsed (record (JStr "") 0)].


Definition no_content_line : stored_line :=
  Parsed (JObj [("ready_at"%string, JInt 0)]).


(** An outside world to run the worker in: a clock in seconds and the
    results the collector will give, in turn; a call to the collector takes
    the next result (a network error once they are used up) and one second. *)
Definition Env : Type := Z * list send_result.

Definition time_time (e : Env) : Z := fst e.

Definition save_statements (payload : json) (e : Env) : send_result * Env :=
  match snd e with
  | result :: later => (result, (fst e + 1, later))
  | [] => (SendRaised NetworkError, (fst e + 1, []))
  end.

Definition decimal (z : Z) : string := NilZero.string_of_int (Z.to_int z).

Definition quoted (s : string) : string :=
  (String (ascii_of_nat 34) s ++ String (ascii_of_nat 34) EmptyString)%string.

(** [json.dumps] on the values of the examples: null, booleans, integers,
    strings that need no escape, and lists and objects of these (a float is
    written as its numerator followed by [.0], its text when it is a small
    whole number). *)
Fixpoint json_dumps (v : json) : string :=
  match v with
  | JNull => "null"
  | JBool true => "true"
  | JBool false => "false"
  | JInt z => decimal z
  | JFloat (FFinite n _) => decimal n ++ ".0"
  | JFloat (FInf false) => "Infinity"
  | JFloat (FInf true) => "-Infinity"
  | JFloat FNaN => "NaN"
  | JStr s => quoted s
  | JList items => "[" ++ String.concat ", " (map json_dumps items) ++ "]"
  | JObj fields =>
      "{" ++ String.concat ", "
               (map (fun kv => quoted (fst kv) ++ ": " ++ json_dumps (snd kv)) fields)
          ++ "}"
  end%string.

(** A lone surrogate, as [json.loads] makes it of the escape [\ud800]. *)
Definition lone_surrogate : string := text_of [55296%N].

(** The JSON text of a list of two strings, the second one written as the
    escape of a lone surrogate. *)
Definition surrogate_list_text : string :=
  ("[" ++ quoted "a" ++ ", " ++ quoted "\ud800" ++ "]")%string.

(** [json.loads] on the texts of the examples: the lists [[1]], [[2]],
    [[3]] and [[1, 2]], the list with the lone surrogate, [null], and an
    integer literal written as [json.dumps] writes it; the other texts of
    the examples ([oops]) are not JSON. *)
Definition json_loads (text : string) : option json :=
  if String.eqb text "[1]" then Some (JList [JInt 1])
  else if String.eqb text surrogate_list_text
  then Some (JList [JStr "a"; JStr lone_surrogate])
  else if String.eqb text "[2]" then Some (JList [JInt 2])
  else if String.eqb text "[3]" then Some (JList [JInt 3])
  else if String.eqb text "[1, 2]" then Some (JList [JInt 1; JInt 2])
  else if String.eqb text "null" then Some JNull
  else match int_of_str text with
       | Some z => if String.eqb (decimal z) text then Some (JInt z) else None
       | None => None
       end.

Definition live : Settings := mkSettings None None None.
Definition live_daily : Settings := mkSettings (Some "03:00"%string) None None.
Definition live_periodic : Settings := mkSettings None (Some 600) None.
Definition to_sink : Settings :=
  mkSettings (Some "03:00"%string) None (Some "retried.jsonl"%string).

Definition unavailable_retry_after_120 : LRSResponse :=
  mkResponse false (Some 503) (Header (Some "120"%string)) "busy".

Definition bad_request : LRSResponse :=
  mkResponse false (Some 400) (Header None) "bad statement".

(** A text that is not JSON, with a line feed in it. *)
Definition two_line_text : string := ("oops" ++ line_feed ++ "more")%string.

Definition three_ready : queue_file :=
  Some [Parsed (record (JStr "[1]") 0); Parsed (record (JStr "[2]") 0);
        Parsed (record (JStr "[3]") 0)].

Definition start (q : queue_file) (clock : Z) (results : list send_result)
  : @world Env :=
  mkWorld q EmptyString (clock, results) [].

(** The clock reads 1000 and the collector will answer 503 with
    [Retry-After: 120]. *)
Definition busy_world : @world Env :=
  start (Some []) 1000 [Responded unavailable_retry_after_120].

(** Three ready records, and a collector that rejects the first send. *)
Definition rejecting_world : @world Env :=
  start three_ready 100 [Responded bad_request].

Definition failing_world : @world Env :=
  start (Some []) 1000 [SendRaised OtherError].

(** The worker in this world, with the backend of the base class. *)
Definition run_one : Settings -> json -> @world Env * bool -> @world Env * bool :=
  @process_one Env time_time save_statements json_loads json_dumps LRSBackendBase.

Definition run_cycle : Settings -> @world Env -> @world Env * phase :=
  @cycle Env time_time save_statements json_loads json_dumps LRSBackendBase.

End Examples.

(** ** The loop of [run] *)

Module Schedule.

Import RetryQueue Worker.

(** [text.split(':')]; [current] is the part being read. *)
Fixpoint split_colon_from (current : string) (text : string) : list string :=
  match text with
  | EmptyString => [current]
  | String c rest =>
      if Ascii.eqb c ":"%char
      then current :: split_colon_from EmptyString rest
      else split_colon_from (current ++ String c EmptyString) rest
  end.

Definition split_colon (text : string) : list string :=
  split_colon_from EmptyString text.

(** [hh, mm = map(int, str(daily_at).split(':'))]; [None] when it raises:
    not exactly two parts, or a part that [int] rejects. *)
Definition parse_daily_at (daily_at : string) : option (Z * Z) :=
  match split_colon daily_at with
  | [hours; minutes] =>
      match int_of_str hours, int_of_str minutes with
      | Some hh, Some mm => Some (hh, mm)
      | _, _ => None
      end
  | _ => None
  end.

(** [getattr(settings, 'RETRY_DAILY_AT', '03:00')], as a string. *)
Definition daily_at (cfg : Settings) : string :=
  match RETRY_DAILY_AT cfg with
  | Some text => text
  | None => "03:00"
  end.

(** The hour and minute [run] works with: 3 and 0 after a format error. *)
Definition daily_time (cfg : Settings) : Z * Z :=
  match parse_daily_at (daily_at cfg) with
  | Some time => time
  | None => (3, 0)
  end.

(** Whether [run] logs the format error of [RETRY_DAILY_AT]. *)
Definition format_error (cfg : Settings) : bool :=
  match parse_daily_at (daily_at cfg) with
  | Some _ => false
  | None => true
  end.

(** How a bounded number of turns of the loop ends: [run] has returned, or
    the loop is still going. *)
Inductive run_status := Returned | Looping.

Section WithEnvironment.

(** Besides the clock and the collector, the loop sees the stop event, lets
    a second pass with [time.sleep(1)], and asks the local calendar for the
    time of today's HH:MM. *)
Context {Env : Type}.
Variable time_time : Env -> Z.
Variable save_statements : json -> Env -> send_result * Env.
Variable json_loads : string -> option json.
Variable json_dumps : json -> string.
Variable stop_is_set : Env -> bool.
Variable sleep : Env -> Env.
Variable window_today : Z -> Z -> Env -> Z.
Context {backend : LRSBackend}.

(** [for _ in range(seconds): if stop is set: return; time.sleep(1)]: the
    world afterwards, and whether the stop event was seen. *)
Fixpoint poll (seconds : nat) (e : Env) : Env * bool :=
  match seconds with
  | O => (e, false)
  | S remaining =>
      if stop_is_set e then (e, true) else poll remaining (sleep e)
  end.

(** [fuel] turns of the [while] loop of [run]. *)
Fixpoint run_loop (fuel : nat) (hh mm : Z) (cfg : Settings) (w : @world Env)
  : @world Env * run_status :=
  match fuel with
  | O => (w, Looping)
  | S fuel' =>
      if stop_is_set (env w) then (w, Returned)
      else
        let target := window_today hh mm (env w) in
        let now_ts := time_time (env w) in
        let (e, stopped) := poll (Z.to_nat (sleep_for target now_ts)) (env w) in
        let w := set_env w e in
        if stopped then (w, Returned)
        else
          let (w, next) := cycle time_time save_statements json_loads json_dumps cfg w in
          match next with
          | WaitingForWindow => run_loop fuel' hh mm cfg w
          | Backoff =>
              let (e, stopped) := poll 60 (env w) in
              let w := set_env w e in
              if stopped then (w, Returned) else run_loop fuel' hh mm cfg w
          end
  end.

(** [run]: the format error of [RETRY_DAILY_AT] is logged before the loop. *)
Definition run (fuel : nat) (cfg : Settings) (w : @world Env)
  : @world Env * run_status :=
  let w := if format_error cfg then logger w ErrorDailyAtFormat else w in
  let (hh, mm) := daily_time cfg in
  run_loop fuel hh mm cfg w.

(** [seconds] calls of [time.sleep(1)]. *)
Fixpoint slept (seconds : nat) (e : Env) : Env :=
  match seconds with
  | O => e
  | S remaining => slept remaining (sleep e)
  end.

End WithEnvironment.

End Schedule.

(** ** Notions used to state the laws of the queue and of the worker *)

Module Notions.

Import RetryQueue Worker View.

(** [s] is [l] with some elements left out, the order kept. *)
Inductive subsequence {A : Type} : list A -> list A -> Prop :=
| subsequence_nil : subsequence [] []
| subsequence_skip x s l : subsequence s l -> subsequence s (x :: l)
| subsequence_take x s l : subsequence s l -> subsequence (x :: s) (x :: l).

(** The entries the sink branch writes for a content string. *)
Definition sink_entries (json_loads : string -> option json)
    (json_dumps : json -> string) (text : string) : list string :=
  match json_loads text with
  | Some (JList items) => map json_dumps items
  | Some parsed => [json_dumps parsed]
  | None => [text]
  end.

(** A call [enqueue(content, delay)] made at time [now]. *)
Definition enqueue_call : Type := Z * json * option Z.

Definition call_content (call : enqueue_call) : json := snd (fst call).

Definition call_ready_at (cfg : Settings) (call : enqueue_call) : Z :=
  enqueue_ready_at cfg (fst (fst call)) (snd call).

Definition enqueue_all (cfg : Settings) (calls : list enqueue_call) (q : queue_file)
  : queue_file :=
  fold_left (fun q call => enqueue cfg (fst (fst call)) (call_content call) (snd call) q)
            calls q.

(** The record stored for a content and its [ready_at]. *)
Definition stored (requeued : json * Z) : stored_line :=
  Parsed (record (fst requeued) (snd requeued)).

(** An entry whose line can be written to the sink: the entry and its line
    feed encode. *)
Definition writable (entry : string) : bool :=
  encodable (entry ++ line_feed).

Definition is_string (v : json) : bool :=
  match v with
  | JStr _ => true
  | _ => false
  end.

Fixpoint no_colon (text : string) : bool :=
  match text with
  | EmptyString => true
  | String c rest => negb (Ascii.eqb c ":"%char) && no_colon rest
  end.

(** A character that no integer text holds: not a decimal digit, an
    underscore, a sign or white space, as [int] sees them. *)
Definition not_in_integer (cp : N) : bool :=
  match digit_val cp with
  | Some _ => false
  | None =>
      (negb (cp =? underscore) && negb (cp =? minus_sign)
       && negb (cp =? plus_sign))%N && negb (is_space cp)
  end.

(** Whether a send put, or would put, its content back in the queue, and
    with which delay. *)
Definition requeued_by {backend : LRSBackend} (result : send_result) : bool :=
  match result with
  | Responded response =>
      negb (success response)
      && (is_not_found (status response) (data response)
          || retryable_status (status response))
  | SendRaised _ => true
  end.

Definition failed (result : send_result) : bool :=
  match result with
  | Responded response => negb (success response)
  | SendRaised _ => true
  end.

Definition requeue_delay (result : send_result) : option Z :=
  match result with
  | Responded response => retry_after_delay response
  | SendRaised _ => None
  end.

End Notions.

(** ** The monitor of the queue ([scripts/monitor_queue.py])

    [QueueMonitor.get_queue_stats], for the counters that rest on the lines
    of the two files.  The ages of the records (and [old_records], which is
    read off them) are differences of floats, and the sizes are those of the
    files in bytes: they are left out. *)

Module Monitor.

Import RetryQueue.

(** [float(z)] raises [OverflowError]: [z] rounds past the largest float. *)
Definition float_overflow (z : Z) : bool :=
  2 ^ 1024 - 2 ^ 970 <=? Z.abs z.

(** The exception of [age = current_time - ready_at], if any; the time is a
    float. *)
Definition age_error (ready_at : json) : option pyexn :=
  match ready_at with
  | JInt z => if float_overflow z then Some OverflowError else None
  | JBool _ => None
  | JFloat _ => None
  | JNull | JStr _ | JList _ | JObj _ => Some TypeError
  end.

(** [ready_at <= current_time] for a number; the time is given by its exact
    value. *)
Definition le_time (ready_at : json) (current_time : Q) : bool :=
  match ready_at with
  | JInt z => Qle_bool (inject_Z z) current_time
  | JBool b => Qle_bool (inject_Z (if b then 1 else 0)) current_time
  | JFloat (FFinite n d) => Qle_bool (Qmake n d) current_time
  | JFloat (FInf negative) => negative
  | JFloat FNaN => false
  | JNull | JStr _ | JList _ | JObj _ => false
  end.

(** The loop over the lines of the queue file: [stats['ready_records']].
    Only [json.JSONDecodeError] is caught: a line that is not JSON is
    skipped, and any other exception escapes, that of [json.loads] too. *)
Fixpoint count_ready (current_time : Q) (lines : list stored_line)
    (ready_records : nat) : outcome nat :=
  match lines with
  | [] => Ok ready_records
  | line :: rest =>
      match line with
      | Blank => count_ready current_time rest ready_records
      | Broken _ => count_ready current_time rest ready_records
      | Unloadable _ e => Raise e
      | Parsed record =>
          let! ready_at := get record "ready_at" (JInt 0) in
          match age_error ready_at with
          | Some e => Raise e
          | None =>
              if le_time ready_at current_time
              then count_ready current_time rest (S ready_records)
              else count_ready current_time rest ready_records
          end
      end
  end.

(** [f.readlines()] on a text: a line ends at a line feed, at a carriage
    return, or at the two in a row. *)
Fixpoint readlines_from (current : string) (text : string) : list string :=
  match text with
  | EmptyString =>
      if String.eqb current EmptyString then [] else [current]
  | String c rest =>
      if Ascii.eqb c (ascii_of_nat 10)
      then current :: readlines_from EmptyString rest
      else if Ascii.eqb c (ascii_of_nat 13)
      then current ::
           match rest with
           | String c' rest' =>
               if Ascii.eqb c' (ascii_of_nat 10)
               then readlines_from EmptyString rest'
               else readlines_from EmptyString rest
           | EmptyString => readlines_from EmptyString rest
           end
      else readlines_from (current ++ String c EmptyString) rest
  end.

Definition readlines (text : string) : list string :=
  readlines_from EmptyString text.

Record Stats := mkStats {
  queue_records : nat;
  ready_records : nat;
  sink_records : nat
}.

(** [get_queue_stats] at the time [current_time], on the queue file and on
    the text of the sink file (empty when there is none). *)
Definition get_queue_stats (current_time : Q) (q : queue_file) (sink_file : string)
  : outcome Stats :=
  let! ready :=
    match q with
    | Some lines => count_ready current_time lines 0
    | None => Ok 0%nat
    end in
  Ok (mkStats (match q with Some lines => List.length lines | None => 0%nat end)
              ready
              (List.length (readlines sink_file))).

(** A line the loop counts as ready. *)
Definition counted (current_time : Q) (line : stored_line) : bool :=
  match line with
  | Parsed (JObj fields) =>
      le_time (match assoc_get "ready_at" fields with
               | Some v => v
               | None => JInt 0
               end) current_time
  | _ => false
  end.



(** A line the monitor can read: blank, not JSON, or an object whose
    [ready_at] is absent or a number that a float can meet. *)
Definition countable (line : stored_line) : bool :=
  match line with
  | Parsed (JObj fields) =>
      match age_error (match assoc_get "ready_at" fields with
                       | Some v => v
                       | None => JInt 0
                       end) with
      | Some _ => false
      | None => true
      end
  | Parsed _ => false
  | Unloadable _ _ => false
  | Blank | Broken _ => true
  end.


End Monitor.

(** ** More inputs for the examples *)

Module MoreExamples.

Import RetryQueue Worker Examples Schedule.

(** The stop event is set from the time 1003 on; a second of sleep is a
    second on the clock; the window is at the time 2000. *)
Definition stop_is_set (e : Env) : bool := 1003 <=? fst e.

Definition sleep (e : Env) : Env := (fst e + 1, snd e).

Definition window_today (hh mm : Z) (e : Env) : Z := 2000.

Definition run_for (fuel : nat) : Settings -> @world Env -> @world Env * run_status :=
  @run Env time_time save_statements json_loads json_dumps
       stop_is_set sleep window_today LRSBackendBase fuel.

(** A stored line that is JSON but not a record. *)
Definition stray_line : stored_line := Parsed (JInt 42).

Definition abc_calls : list Notions.enqueue_call :=
  [(1, JStr "A", None); (2, JStr "B", Some 30); (3, JStr "C", None)].

Definition http_date : string := "Wed, 21 Oct 2026 07:28:00 GMT".

Definition unavailable_retry_after_date : LRSResponse :=
  mkResponse false (Some 503) (Header (Some http_date)) "busy".

Definition accepted : LRSResponse := mkResponse true (Some 200) (Header None) "".

(** Three ready records, and a collector that accepts every send. *)
Definition accepting_world : @world Env :=
  start three_ready 100 [Responded accepted; Responded accepted; Responded accepted].

(** The clock reads 1000, three seconds before the stop event is set. *)
Definition idle_world : @world Env := start three_ready 1000 [].

(** A queue with a stray line in it. *)
Definition blocked_world : @world Env :=
  start (Some [Parsed (record (JStr "[1]") 0); stray_line]) 100 [Responded accepted].

Definition out_of_range : Settings := mkSettings (Some "25:99"%string) None None.

(** A daily time written with seconds, which [run] does not take. *)
Definition with_seconds : Settings := mkSettings (Some "12:30:00"%string) None None.

(** Three ready records, and a collector that answers 503 to the probe. *)
Definition busy_three_world : @world Env :=
  start three_ready 100 [Responded unavailable_retry_after_120].

(** The collector will answer 503 with an HTTP date in [Retry-After]. *)
Definition date_world : @world Env :=
  start (Some []) 1000 [Responded unavailable_retry_after_date].

(** A record whose [ready_at] is the text of an integer. *)
Definition text_ready_at_line : stored_line :=
  Parsed (JObj [("content"%string, JStr "[1]"); ("ready_at"%string, JStr "120")]).

(** A queue that holds a record without content among others. *)
Definition keeper_world : @world Env :=
  start (Some (abc_file ++ [no_content_line])) 100 [].

(** A stop event that is never set, and three ready records ten seconds
    before the window. *)
Definition no_stop (e : Env) : bool := false.

Definition early_world : @world Env :=
  start three_ready 1990 [Responded accepted; Responded accepted; Responded accepted].

Definition run_batch : Settings -> list json -> @world Env -> @world Env * bool :=
  @_process_batch Env time_time save_statements json_loads json_dumps LRSBackendBase.

Definition run_loop_for (fuel : nat) (hh mm : Z)
  : Settings -> @world Env -> @world Env * run_status :=
  @run_loop Env time_time save_statements json_loads json_dumps
            stop_is_set sleep window_today LRSBackendBase fuel hh mm.

End MoreExamples.

(** ** Properties of the queue store *)

Module QueueFacts.

Import RetryQueue View.

Lemma get_content_ok rec at_field :
  get rec "ready_at" (JInt 0) = Ok at_field ->
  get rec "content" JNull = Ok (content_of (Parsed rec)).
Proof.
  destruct rec; simpl; try discriminate. reflexivity.
Qed.

Lemma crash_none_ready_at line :
  is_record line = true -> crash line = None ->
  exists t, ready_at_of line = Some t.
Proof.
  destruct line as [| raw | raw e | rec]; simpl; try discriminate.
  intros _. destruct rec; simpl; try discriminate.
  destruct (int _) as [t | e]; [eauto | discriminate].
Qed.

Lemma crash_none_readable line :
  crash line = None <-> readable line = true.
Proof.
  unfold readable, well_formed.
  destruct line as [| raw | raw e | rec]; simpl; try tauto.
  destruct rec; simpl; try (split; discriminate).
  destruct (int _); simpl; split; congruence.
Qed.

Lemma first_crash_none lines :
  first_crash lines = None <-> forallb readable lines = true.
Proof.
  induction lines as [| line rest IH]; simpl; [tauto |].
  rewrite andb_true_iff, <- IH, <- crash_none_readable.
  destruct (crash line); intuition discriminate.
Qed.

(** One turn of the loop, read through the view. *)
Lemma scan_step now line rest rdy rem :
  scan now (line :: rest) rdy rem =
  match crash line with
  | Some e => Raise e
  | None =>
      scan now rest
        (if ready now line then rdy ++ [content_of line] else rdy)
        (if waiting now line then rem ++ [line] else rem)
  end.
Proof.
  unfold waiting, ready, well_formed, due, has_content.
  destruct line as [| raw | raw e | rec]; try reflexivity.
  destruct rec; try reflexivity.
  cbn [scan crash ready_at_of content_of get bind].
  destruct (int _) as [t | e]; cbn [bind]; [| reflexivity].
  destruct (t <=? now); cbn [andb negb]; [| reflexivity].
  destruct (truthy _); reflexivity.
Qed.

Lemma scan_view now lines : forall rdy rem,
  scan now lines rdy rem =
  match first_crash lines with
  | Some e => Raise e
  | None => Ok (rdy ++ map content_of (filter (ready now) lines),
                rem ++ filter (waiting now) lines)
  end.
Proof.
  induction lines as [| line rest IH]; intros rdy rem.
  - simpl. now rewrite !app_nil_r.
  - rewrite scan_step. cbn [first_crash filter].
    destruct (crash line); [reflexivity |].
    rewrite IH. destruct (first_crash rest); [reflexivity |].
    destruct (ready now line), (waiting now line); cbn [map];
      now rewrite <- ?app_assoc.
Qed.

Lemma read_ready_view now lines :
  read_ready now (Some lines) =
  match first_crash lines with
  | Some e => (Raise e, Some lines)
  | None => (Ok (map content_of (filter (ready now) lines)),
             Some (filter (waiting now) lines))
  end.
Proof.
  unfold read_ready. rewrite scan_view.
  destruct (first_crash lines); reflexivity.
Qed.

Lemma ready_not_waiting now line :
  ready now line = true -> waiting now line = false.
Proof.
  unfold waiting. intros ->. now rewrite andb_false_r.
Qed.

Lemma ready_well_formed now line :
  ready now line = true -> well_formed line = true.
Proof.
  unfold ready, due, well_formed.
  destruct (ready_at_of line); [reflexivity | discriminate].
Qed.

Lemma well_formed_is_record line :
  well_formed line = true -> is_record line = true.
Proof.
  destruct line; simpl; try discriminate; reflexivity.
Qed.

Lemma waiting_readable now line :
  waiting now line = true -> readable line = true.
Proof.
  unfold waiting, readable. intros H.
  apply andb_true_iff in H as [-> _]. apply orb_true_r.
Qed.

(** What an extraction leaves never makes a later extraction raise. *)
Lemma first_crash_waiting now lines :
  first_crash (filter (waiting now) lines) = None.
Proof.
  apply first_crash_none, forallb_forall.
  intros line H. apply filter_In in H as [_ H].
  eapply waiting_readable; eassumption.
Qed.

Lemma split_permutation now lines :
  forallb readable lines = true ->
  Permutation (filter (ready now) lines ++ filter (waiting now) lines)
              (records lines).
Proof.
  unfold records.
  induction lines as [| line rest IH]; simpl; [constructor |].
  intros H. apply andb_true_iff in H as [Hl Hr]. specialize (IH Hr).
  destruct (ready now line) eqn:Er.
  - rewrite (ready_not_waiting _ _ Er).
    rewrite (well_formed_is_record _ (ready_well_formed _ _ Er)).
    simpl. now constructor.
  - unfold waiting. rewrite Er, andb_true_r.
    unfold readable in Hl.
    destruct (well_formed line) eqn:Ew.
    + rewrite (well_formed_is_record _ Ew).
      apply Permutation_sym, Permutation_cons_app, Permutation_sym, IH.
    + rewrite orb_false_r in Hl. apply negb_true_iff in Hl. rewrite Hl. exact IH.
Qed.



Lemma ready_record content ready_at now :
  ready now (Parsed (record content ready_at))
  = (ready_at <=? now) && truthy content.
Proof. reflexivity. Qed.


End QueueFacts.

Module QueueProperties.

Import RetryQueue View QueueFacts Examples.

(** C1. One call of [read_ready] splits the stored records without loss and
    without duplication.  When the call returns, the contents it returns are
    those of the lines [taken], the file holds the lines [left], [taken] and
    [left] together are the stored records (as multisets) and have no record
    in common; a later call on the file, at any time, returns contents of
    lines of [left] only, so none of the records taken before.  When the
    call raises it returns nothing and leaves the file as it was. *)
Theorem read_ready_partitions_records (now : Z) (q : queue_file) :
  let taken := filter (ready now) (lines_of q) in
  let left := filter (waiting now) (lines_of q) in
  match read_ready now q with
  | (Raise _, q') => q' = q
  | (Ok contents, q') =>
      contents = map content_of taken /\
      lines_of q' = left /\
      Permutation (taken ++ left) (records (lines_of q)) /\
      (forall line, In line taken -> ~ In line left) /\
      (forall later,
          fst (read_ready later q') =
            Ok (map content_of (filter (ready later) left)) /\
          forall line, In line taken -> ~ In line (filter (ready later) left))
  end.
Proof.
  destruct q as [lines |]; cbn [lines_of].
  - rewrite read_ready_view.
    destruct (first_crash lines) eqn:Ec; [reflexivity |].
    assert (Hdisj : forall line, In line (filter (ready now) lines) ->
                                 ~ In line (filter (waiting now) lines)).
    { intros line H1 H2.
      apply filter_In in H1 as [_ H1]. apply filter_In in H2 as [_ H2].
      rewrite (ready_not_waiting _ _ H1) in H2. discriminate. }
    repeat split; auto.
    + apply split_permutation, first_crash_none, Ec.
    + rewrite read_ready_view, first_crash_waiting. reflexivity.
    + intros line H1 H2. apply filter_In in H2 as [H2 _].
      exact (Hdisj line H1 H2).
  - simpl. repeat split; auto; constructor.
Qed.

(** C2, as the spec states it, fails: a stored record with [ready_at = 0]
    and an empty content is not returned at time 10, and stays in the file. *)
Lemma read_ready_keeps_due_record_without_content :
  fst (read_ready 10 (Some empty_content_file))
    <> Ok (map content_of (filter (due 10) empty_content_file)) /\
  snd (read_ready 10 (Some empty_content_file))
    <> Some (filter (fun line => negb (due 10 line)) empty_content_file).
Proof.
  split; vm_compute; discriminate.
Qed.

(** C2, amended.  On a file whose records are well formed, [read_ready] at
    time [now] returns exactly the contents of the records with
    [ready_at <= now] and a content that is not empty, in the order of the
    file, and rewrites the file to the other records in their order.  A
    record with a content, ready at a future time, is left out and kept by
    a call before that time; the first call at or after that time returns
    its content once, at its place, and removes it from the file. *)
Theorem read_ready_returns_ready_in_order (now : Z) (lines : list stored_line) :
  forallb readable lines = true ->
  read_ready now (Some lines) =
    (Ok (map content_of (filter (ready now) lines)),
     Some (filter (waiting now) lines)) /\
  (forall content ready_at,
      ready now (Parsed (record content ready_at))
      = (ready_at <=? now) && truthy content) /\
  (forall line, In line (filter (waiting now) lines) -> ready now line = false) /\
  (forall pre post content ready_at later,
      lines = pre ++ Parsed (record content ready_at) :: post ->
      truthy content = true ->
      now < ready_at <= later ->
      let kept_pre := filter (waiting now) pre in
      let kept_post := filter (waiting now) post in
      read_ready now (Some lines) =
        (Ok (map content_of (filter (ready now) (pre ++ post))),
         Some (kept_pre ++ Parsed (record content ready_at) :: kept_post)) /\
      read_ready later (snd (read_ready now (Some lines))) =
        (Ok (map content_of (filter (ready later) kept_pre) ++
             content :: map content_of (filter (ready later) kept_post)),
         Some (filter (waiting later) kept_pre ++ filter (waiting later) kept_post))).
Proof.
  intros Hwf.
  assert (Hview : read_ready now (Some lines) =
    (Ok (map content_of (filter (ready now) lines)),
     Some (filter (waiting now) lines))).
  { rewrite read_ready_view.
    now apply first_crash_none in Hwf as ->. }
  split; [exact Hview |].
  split; [intros; apply ready_record |].
  split.
  { intros line H. apply filter_In in H as [_ H].
    unfold waiting in H. apply andb_true_iff in H as [_ H].
    now apply negb_true_iff in H. }
  intros pre post content ready_at later -> Hc [Hlt Hle] kept_pre kept_post.
  assert (Hnow : ready now (Parsed (record content ready_at)) = false).
  { rewrite ready_record. destruct (Z.leb_spec ready_at now); [lia | reflexivity]. }
  assert (Hlater : ready later (Parsed (record content ready_at)) = true).
  { rewrite ready_record, Hc.
    destruct (Z.leb_spec ready_at later); [reflexivity | lia]. }
  assert (Hw : waiting now (Parsed (record content ready_at)) = true).
  { unfold waiting. rewrite Hnow. reflexivity. }
  rewrite Hview.
  rewrite !filter_app. cbn [filter]. rewrite Hnow, Hw.
  split; [reflexivity |].
  cbn [snd]. rewrite read_ready_view.
  assert (Hcf : first_crash (filter (waiting now) pre ++
                  Parsed (record content ready_at) :: filter (waiting now) post) = None).
  { generalize (first_crash_waiting now (pre ++ Parsed (record content ready_at) :: post)).
    rewrite filter_app. cbn [filter]. now rewrite Hw. }
  rewrite Hcf.
  rewrite !filter_app. cbn [filter].
  rewrite Hlater, (ready_not_waiting _ _ Hlater).
  rewrite map_app. reflexivity.
Qed.

(** Contents enqueued as A, B, C and all ready come back as A, B, C. *)
Lemma read_ready_fifo_example :
  forallb readable abc_file = true /\
  read_ready 10 (Some abc_file) = (Ok [JStr "A"; JStr "B"; JStr "C"], Some []).
Proof.
  split; [reflexivity |].
  exact (proj1 (read_ready_returns_ready_in_order 10 abc_file eq_refl)).
Defined.

(** C6, as the spec states it, fails: without a daily time and with a retry
    interval of 60, an explicit delay of 0 is stored as [now + 60], not as
    [now + 0]. *)
Lemma enqueue_zero_delay_takes_default :
  enqueue (mkSettings None (Some 60) None) 1000 (JStr "A") (Some 0) (Some [])
    = Some [Parsed (record (JStr "A") 1060)] /\
  enqueue (mkSettings None (Some 60) None) 1000 (JStr "A") (Some 0) (Some [])
    <> Some [Parsed (record (JStr "A") (1000 + 0))].
Proof.
  split; vm_compute; [reflexivity | discriminate].
Qed.

(** C6, amended.  [enqueue] appends one record after the stored lines, which
    it leaves as they are.  Its [ready_at] is [now] when a daily time is
    configured; otherwise [now + delay] for a delay that is given and not
    zero, and [now] plus the configured retry interval (0 when there is
    none) for a delay that is absent or zero. *)
Theorem enqueue_appends_record (cfg : Settings) (now : Z) (content : json)
    (delay : option Z) (q : queue_file) :
  let interval := match RETRY_DELAY_SECONDS cfg with Some d => d | None => 0 end in
  let ready_at := enqueue_ready_at cfg now delay in
  lines_of (enqueue cfg now content delay q)
    = lines_of q ++ [Parsed (record content ready_at)] /\
  ready_at_of (Parsed (record content ready_at)) = Some ready_at /\
  content_of (Parsed (record content ready_at)) = content /\
  (str_set (RETRY_DAILY_AT cfg) = true -> ready_at = now) /\
  (str_set (RETRY_DAILY_AT cfg) = false ->
     (forall d, delay = Some d -> d <> 0 -> ready_at = now + d) /\
     (delay = None \/ delay = Some 0 -> ready_at = now + interval)).
Proof.
  cbv zeta. unfold enqueue, enqueue_ready_at.
  split; [destruct q; reflexivity |].
  split; [reflexivity |]. split; [reflexivity |].
  split; [intros ->; reflexivity |].
  intros ->. split.
  - intros d -> Hd. simpl. destruct (Z.eqb_spec d 0); [contradiction | reflexivity].
  - assert (Hi : or_int (RETRY_DELAY_SECONDS cfg) 0
                 = match RETRY_DELAY_SECONDS cfg with Some d => d | None => 0 end).
    { destruct (RETRY_DELAY_SECONDS cfg) as [d |]; simpl; [| reflexivity].
      destruct (Z.eqb_spec d 0); congruence. }
    intros [-> | ->]; simpl; now rewrite Hi.
Qed.

Lemma enqueue_appends_record_example :
  lines_of (enqueue (mkSettings None (Some 60) None) 1000 (JStr "A") (Some 30)
                    (Some abc_file))
    = abc_file ++ [Parsed (record (JStr "A") 1030)] /\
  lines_of (enqueue (mkSettings (Some "03:00"%string) (Some 60) None) 1000 (JStr "A")
                    (Some 30) (Some abc_file))
    = abc_file ++ [Parsed (record (JStr "A") 1000)].
Proof.
  split.
  - exact (proj1 (enqueue_appends_record (mkSettings None (Some 60) None) 1000
                    (JStr "A") (Some 30) (Some abc_file))).
  - exact (proj1 (enqueue_appends_record (mkSettings (Some "03:00"%string) (Some 60) None)
                    1000 (JStr "A") (Some 30) (Some abc_file))).
Defined.




(** C9.  A well-formed stored record whose content is missing, empty or
    otherwise false is never returned by [read_ready], whatever the time:
    the call leaves it in the file (rewritten or not), the contents it
    returns are those of other lines and are all true values; and the
    record is still in the file after any history of [enqueue] and
    [read_ready] calls. *)
Theorem falsy_content_record_stays (line : stored_line) (lines : list stored_line) :
  well_formed line = true ->
  has_content line = false ->
  In line lines ->
  (forall now,
      In line (lines_of (snd (read_ready now (Some lines)))) /\
      ~ In line (filter (ready now) lines) /\
      forall contents,
        fst (read_ready now (Some lines)) = Ok contents ->
        contents = map content_of (filter (ready now) lines) /\
        forall c, In c contents -> truthy c = true) /\
  (forall ops, In line (lines_of (apply_ops ops (Some lines)))).
Proof.
  intros Hwf Hnc Hin.
  assert (Hnr : forall now, ready now line = false).
  { intros now. unfold ready. rewrite Hnc. apply andb_false_r. }
  assert (Hw : forall now, waiting now line = true).
  { intros now. unfold waiting. now rewrite Hwf, Hnr. }
  assert (Hkeep : forall now q, In line (lines_of q) ->
                                In line (lines_of (snd (read_ready now q)))).
  { intros now [ls |] H; [| exact H].
    rewrite read_ready_view. destruct (first_crash ls); [exact H |].
    apply filter_In. split; [exact H | apply Hw]. }
  split.
  - intros now. split; [apply (Hkeep now (Some lines)), Hin |].
    split.
    + intros H. apply filter_In in H as [_ H]. rewrite Hnr in H. discriminate.
    + intros contents H. rewrite read_ready_view in H.
      destruct (first_crash lines); [discriminate |].
      injection H as <-. split; [reflexivity |].
      intros c Hc. apply in_map_iff in Hc as [l [<- Hl]].
      apply filter_In in Hl as [_ Hl]. unfold ready in Hl.
      apply andb_true_iff in Hl as [_ Hl]. exact Hl.
  - intros ops. unfold apply_ops.
    assert (Hgen : forall q, In line (lines_of q) ->
                             In line (lines_of (fold_left apply_op ops q))).
    { induction ops as [| op rest IH]; intros q H; [exact H |].
      simpl. apply IH. destruct op as [cfg now c d | now]; simpl.
      - unfold enqueue, append_line. destruct q as [ls |]; simpl in *; [| tauto].
        apply in_or_app. now left.
      - apply Hkeep, H. }
    apply Hgen, Hin.
Qed.

Lemma falsy_content_record_stays_example :
  (well_formed no_content_line = true /\
   has_content no_content_line = false /\
   In no_content_line (abc_file ++ [no_content_line])) /\
  In no_content_line
     (lines_of (apply_ops [OpReadReady 10;
                           OpEnqueue (mkSettings None None None) 20 (JStr "D") None;
                           OpReadReady 30]
                          (Some (abc_file ++ [no_content_line])))).
Proof.
  assert (H : well_formed no_content_line = true /\
              has_content no_content_line = false /\
              In no_content_line (abc_file ++ [no_content_line])).
  { split; [reflexivity |]. split; [reflexivity |].
    apply in_or_app. right. left. reflexivity. }
  split; [exact H |].
  destruct H as [H1 [H2 H3]].
  exact (proj2 (falsy_content_record_stays no_content_line _ H1 H2 H3) _).
Defined.

End QueueProperties.

(** ** Properties of the dispatch worker *)

Module WorkerFacts.

Import RetryQueue View QueueFacts Worker.

Lemma lines_of_append_line q line :
  lines_of (append_line q line) = lines_of q ++ [line].
Proof. destruct q; reflexivity. Qed.

Lemma append_line_changes q line : append_line q line <> q.
Proof.
  intros H. apply (f_equal (fun q => List.length (lines_of q))) in H.
  rewrite lines_of_append_line, length_app in H. simpl in H. lia.
Qed.

Lemma retryable_status_codes status :
  retryable_status status = true <->
  exists code, status = Some code /\ In code [408; 429; 500; 502; 503; 504].
Proof.
  destruct status as [code |]; simpl.
  - rewrite !orb_true_iff, !Z.eqb_eq. split.
    + intros H. exists code. split; [reflexivity |]. intuition auto.
    + intros [c [[= <-] H]]. intuition auto.
  - split; [discriminate | intros [c [[=] _]]].
Qed.



Section WithEnvironment.

Context {Env : Type}.
Variable time_time : Env -> Z.
Variable save_statements : json -> Env -> send_result * Env.
Variable json_loads : string -> option json.
Variable json_dumps : json -> string.
Context {backend : LRSBackend}.

Local Abbreviation loads := (Worker.loads json_loads).
Local Abbreviation requeue := (Worker.requeue time_time).
Local Abbreviation process_one :=
  (Worker.process_one time_time save_statements json_loads json_dumps).
Local Abbreviation _process_batch :=
  (Worker._process_batch time_time save_statements json_loads json_dumps).
Local Abbreviation cycle :=
  (Worker.cycle time_time save_statements json_loads json_dumps).

(** What one turn does in live mode once the payload is parsed and the
    collector has answered or failed. *)
Lemma process_one_live cfg content payload result env' (w : world) all_ok :
  str_set (RETRY_SINK_FILE cfg) = false ->
  loads content = Ok payload ->
  save_statements payload (env w) = (result, env') ->
  process_one cfg content (w, all_ok) =
  let w1 := set_env w env' in
  match result with
  | Responded response =>
      if negb (success response) then
        if is_not_found (status response) (data response)
           || retryable_status (status response)
        then (requeue cfg content (retry_after_delay response) w1, false)
        else (logger w1 (ErrorResend (status response) (data response)), false)
      else (logger w1 InfoResent, all_ok)
  | SendRaised NetworkError =>
      (requeue cfg content None (logger w1 WarningNetwork), false)
  | SendRaised OtherError =>
      (requeue cfg content None (logger w1 ErrorSend), false)
  end.
Proof.
  intros Hlive Hloads Hsend. unfold Worker.process_one.
  rewrite Hlive, Hloads, Hsend. reflexivity.
Qed.

Lemma process_one_unparsed cfg content e (w : world) all_ok :
  str_set (RETRY_SINK_FILE cfg) = false ->
  loads content = Raise e ->
  process_one cfg content (w, all_ok) = (logger w (ErrorBatch e), false).
Proof.
  intros Hlive Hloads. unfold Worker.process_one.
  rewrite Hlive, Hloads. reflexivity.
Qed.

Lemma queue_requeue cfg content delay (w : world) :
  queue (requeue cfg content delay w)
  = enqueue cfg (time_time (env w)) content delay (queue w).
Proof. reflexivity. Qed.

(** Re-queuing a list of contents one after the other. *)
Lemma requeue_all cfg contents : forall w : world,
  let w' := fold_left (fun w c => requeue cfg c None w) contents w in
  let ready_at := enqueue_ready_at cfg (time_time (env w)) None in
  lines_of (queue w') =
    lines_of (queue w) ++ map (fun c => Parsed (record c ready_at)) contents /\
  env w' = env w /\ sink w' = sink w /\
  log w' = log w ++ map (fun _ => InfoEnqueued ready_at) contents.
Proof.
  induction contents as [| c rest IH]; intros w; cbn zeta.
  - simpl. now rewrite !app_nil_r.
  - cbn [fold_left map].
    destruct (IH (requeue cfg c None w)) as (Hq & He & Hs & Hl).
    rewrite Hq, He, Hs, Hl. cbn [Worker.requeue env sink log queue logger set_queue].
    unfold enqueue. rewrite lines_of_append_line, <- !app_assoc.
    repeat split; reflexivity.
Qed.

(** The sink file only grows, whatever the mode. *)
Lemma process_one_sink_grows cfg content (st : world * bool) :
  exists suffix, sink (fst (process_one cfg content st)) = (sink (fst st) ++ suffix)%string.
Proof.
  destruct st as [w all_ok]. unfold Worker.process_one. cbn [fst].
  assert (Hnil : forall s : string, (s ++ "")%string = s).
  { induction s; simpl; congruence. }
  destruct (str_set (RETRY_SINK_FILE cfg)).
  - destruct (sink_text _ _ content) as [text [e |]]; exists text; reflexivity.
  - exists EmptyString. rewrite Hnil.
    destruct (loads content) as [payload | e]; [| reflexivity].
    destruct (save_statements payload (env w)) as [result env'].
    destruct result as [response | []]; try reflexivity.
    destruct (negb (success response)); [| reflexivity].
    destruct (_ || _); reflexivity.
Qed.

Lemma string_app_assoc (a b c : string) :
  ((a ++ b) ++ c = a ++ (b ++ c))%string.
Proof. induction a; simpl; congruence. Qed.

Lemma string_app_nil (a : string) : (a ++ "")%string = a.
Proof. induction a; simpl; congruence. Qed.

Lemma unlines_app (old new : list string) :
  unlines (old ++ new) = (unlines old ++ unlines new)%string.
Proof.
  unfold unlines. induction old as [| e rest IH]; [reflexivity |].
  cbn [map app String.concat].
  destruct (map _ (rest ++ new)) eqn:E1, (map _ rest) eqn:E2.
  - destruct rest; [| discriminate]. simpl in *.
    destruct new; [| discriminate]. simpl. now rewrite string_app_nil.
  - destruct rest; discriminate.
  - destruct rest; [| discriminate]. simpl in *. rewrite E1. reflexivity.
  - rewrite <- E1, <- E2 in *. simpl in IH. rewrite IH.
    simpl. now rewrite !string_app_assoc.
Qed.

Lemma unlines_cons (e : string) (rest : list string) :
  unlines (e :: rest) = (e ++ line_feed ++ unlines rest)%string.
Proof.
  change (e :: rest) with ([e] ++ rest). rewrite unlines_app.
  unfold unlines at 1. cbn [map String.concat]. apply string_app_assoc.
Qed.

Lemma text_lines_from_entry (e : string) : forall current rest,
  single_line e = true ->
  text_lines_from current (e ++ line_feed ++ rest)
  = (current ++ e)%string :: text_lines_from EmptyString rest.
Proof.
  induction e as [| c e IH]; intros current rest H.
  - simpl. now rewrite string_app_nil.
  - simpl in H. apply andb_true_iff in H as [H He].
    apply andb_true_iff in H as [Hc _]. apply negb_true_iff in Hc.
    cbn [String.append text_lines_from]. rewrite Hc, (IH _ _ He).
    now rewrite string_app_assoc.
Qed.

(** A reader of the text of line-break-free entries sees these entries. *)
Lemma text_lines_unlines (entries : list string) :
  forallb single_line entries = true ->
  text_lines (unlines entries) = entries.
Proof.
  unfold text_lines. induction entries as [| e rest IH]; intros H; [reflexivity |].
  simpl in H. apply andb_true_iff in H as [He Hr].
  rewrite unlines_cons, (text_lines_from_entry e _ _ He), (IH Hr). reflexivity.
Qed.

Lemma process_batch_sink_grows cfg contents : forall st : world * bool,
  exists suffix,
    sink (fst (fold_left (fun st c => process_one cfg c st) contents st))
    = (sink (fst st) ++ suffix)%string.
Proof.
  induction contents as [| c rest IH]; intros st; simpl.
  - exists EmptyString. induction (sink (fst st)); simpl; congruence.
  - destruct (IH (process_one cfg c st)) as [s2 H2].
    destruct (process_one_sink_grows cfg c st) as [s1 H1].
    exists (s1 ++ s2)%string. rewrite H2, H1. apply string_app_assoc.
Qed.

End WithEnvironment.

End WorkerFacts.

Module WorkerProperties.

Import RetryQueue View QueueFacts Worker WorkerFacts.

Section WithEnvironment.

Context {Env : Type}.
Variable time_time : Env -> Z.
Variable save_statements : json -> Env -> send_result * Env.
Variable json_loads : string -> option json.
Variable json_dumps : json -> string.
Context {backend : LRSBackend}.

Local Abbreviation loads := (Worker.loads json_loads).
Local Abbreviation requeue := (Worker.requeue time_time).
Local Abbreviation process_one :=
  (Worker.process_one time_time save_statements json_loads json_dumps).
Local Abbreviation _process_batch :=
  (Worker._process_batch time_time save_statements json_loads json_dumps).
Local Abbreviation cycle :=
  (Worker.cycle time_time save_statements json_loads json_dumps).

(** C5.  In live mode, when the collector answers a send with a response
    that is not a success, the batch is reported as failed and the content
    is put back in the queue if and only if the backend classifies the
    status as not found or the status is one of 408, 429, 500, 502, 503,
    504; for any other status the error is logged and the queue is left as
    it was.  The backend of the base class classifies exactly the status
    404 as not found. *)
Theorem failed_response_requeued_iff_transient
    (cfg : Settings) (content payload : json) (response : LRSResponse)
    (env' : Env) (w : world) (all_ok : bool) :
  str_set (RETRY_SINK_FILE cfg) = false ->
  loads content = Ok payload ->
  save_statements payload (env w) = (Responded response, env') ->
  success response = false ->
  let transient := is_not_found (status response) (data response)
                   || retryable_status (status response) in
  let w' := fst (process_one cfg content (w, all_ok)) in
  snd (process_one cfg content (w, all_ok)) = false /\
  (transient = true ->
     queue w' = enqueue cfg (time_time env') content
                        (retry_after_delay response) (queue w)) /\
  (transient = false ->
     queue w' = queue w /\
     log w' = log w ++ [ErrorResend (status response) (data response)]) /\
  (queue w' <> queue w <-> transient = true) /\
  (retryable_status (status response) = true <->
     exists code, status response = Some code /\
                  In code [408; 429; 500; 502; 503; 504]) /\
  (forall status_code response_data,
      @is_not_found LRSBackendBase status_code response_data = true <->
      status_code = Some 404).
Proof.
  intros Hlive Hloads Hsend Hfail. cbv zeta.
  rewrite (process_one_live _ _ _ _ cfg content payload _ env' w all_ok Hlive Hloads Hsend).
  cbv zeta. rewrite Hfail. cbn [negb].
  destruct (is_not_found (status response) (data response)
            || retryable_status (status response)) eqn:Et; cbn [fst snd].
  - split; [reflexivity |]. split; [intros _; reflexivity |].
    split; [discriminate |]. split.
    + split; [reflexivity | intros _]. rewrite queue_requeue.
      apply append_line_changes.
    + split; [apply retryable_status_codes |].
      intros [code |] d; simpl; [rewrite Z.eqb_eq |]; split; congruence.
  - split; [reflexivity |]. split; [discriminate |].
    split; [intros _; split; reflexivity |]. split.
    + split; [intros H; now elim H | discriminate].
    + split; [apply retryable_status_codes |].
      intros [code |] d; simpl; [rewrite Z.eqb_eq |]; split; congruence.
Qed.

(** C3, amended.  In live mode a response that is a transient failure puts
    the content back as one new record whose [ready_at] is computed by
    [enqueue] from the clock at that moment and the [Retry-After] header.
    With a header that reads as the integer [n]: without a daily time and
    for [n] not zero, [ready_at = now + n]; with a daily time configured,
    [ready_at = now], the header being ignored.  Without a header value the
    record is the one a plain [enqueue] of the content makes. *)
Theorem transient_failure_requeue_ready_at
    (cfg : Settings) (content payload : json) (response : LRSResponse)
    (env' : Env) (w : world) (all_ok : bool) :
  str_set (RETRY_SINK_FILE cfg) = false ->
  loads content = Ok payload ->
  save_statements payload (env w) = (Responded response, env') ->
  success response = false ->
  is_not_found (status response) (data response)
  || retryable_status (status response) = true ->
  let now := time_time env' in
  let w' := fst (process_one cfg content (w, all_ok)) in
  let ready_at := enqueue_ready_at cfg now (retry_after_delay response) in
  lines_of (queue w') = lines_of (queue w) ++ [Parsed (record content ready_at)] /\
  (forall text n,
      retry_after response = Header (Some text) ->
      int_of_str text = Some n ->
      (str_set (RETRY_DAILY_AT cfg) = false -> n <> 0 -> ready_at = now + n) /\
      (str_set (RETRY_DAILY_AT cfg) = true -> ready_at = now)) /\
  (retry_after response = Header None \/ retry_after response = NoGetheader \/
   retry_after response = GetheaderRaises ->
     queue w' = enqueue cfg now content None (queue w)).
Proof.
  intros Hlive Hloads Hsend Hfail Ht. cbv zeta.
  rewrite (process_one_live _ _ _ _ cfg content payload _ env' w all_ok Hlive Hloads Hsend).
  cbv zeta. rewrite Hfail. cbn [negb]. rewrite Ht. cbn [fst].
  rewrite queue_requeue. cbn [set_env env queue].
  split; [unfold enqueue; apply lines_of_append_line |].
  split.
  - intros text n Hh Hn.
    assert (Hd : retry_after_delay response = Some n).
    { unfold retry_after_delay. rewrite Hh.
      destruct (String.eqb_spec text EmptyString) as [-> | _]; [discriminate | exact Hn]. }
    rewrite Hd. unfold enqueue_ready_at. split.
    + intros -> Hz. simpl. destruct (Z.eqb_spec n 0); [contradiction | reflexivity].
    + intros ->. reflexivity.
  - intros [Hh | [Hh | Hh]]; unfold retry_after_delay; rewrite Hh; reflexivity.
Qed.

(** C10, amended.  In live mode, when the send of a content raises, whatever
    the exception, the batch is reported as failed and the content is put
    back in the queue by a plain [enqueue].  A content is left out of the
    queue only when the collector answered with a success, or answered with
    a failure whose status is neither not found nor retryable, or when the
    content could not be parsed as JSON, in which case nothing was sent. *)
Theorem live_send_requeues_unless_answered
    (cfg : Settings) (content : json) (w : world) (all_ok : bool) :
  str_set (RETRY_SINK_FILE cfg) = false ->
  let w' := fst (process_one cfg content (w, all_ok)) in
  (forall payload err env',
      loads content = Ok payload ->
      save_statements payload (env w) = (SendRaised err, env') ->
      snd (process_one cfg content (w, all_ok)) = false /\
      queue w' = enqueue cfg (time_time env') content None (queue w)) /\
  (queue w' = queue w ->
     (exists e, loads content = Raise e /\ env w' = env w) \/
     (exists payload response env',
         loads content = Ok payload /\
         save_statements payload (env w) = (Responded response, env') /\
         (success response = true \/
          success response = false /\
          is_not_found (status response) (data response)
          || retryable_status (status response) = false))).
Proof.
  intros Hlive. cbv zeta. split.
  - intros payload err env' Hloads Hsend.
    rewrite (process_one_live _ _ _ _ cfg content payload _ env' w all_ok Hlive Hloads Hsend).
    destruct err; cbn [fst snd]; rewrite queue_requeue; split; reflexivity.
  - destruct (loads content) as [payload | e] eqn:Hloads.
    + destruct (save_statements payload (env w)) as [result env'] eqn:Hsend.
      rewrite (process_one_live _ _ _ _ cfg content payload _ env' w all_ok Hlive Hloads Hsend).
      cbv zeta. destruct result as [response | err].
      * destruct (success response) eqn:Es; cbn [negb].
        -- intros _. right. exists payload, response, env'. auto.
        -- destruct (_ || _) eqn:Et; cbn [fst].
           ++ rewrite queue_requeue. intros H.
              now apply append_line_changes in H.
           ++ intros _. right. exists payload, response, env'. auto.
      * destruct err; cbn [fst]; rewrite queue_requeue; intros H;
          now apply append_line_changes in H.
    + rewrite (process_one_unparsed _ _ _ _ cfg content e w all_ok Hlive Hloads).
      intros _. left. exists e. split; reflexivity.
Qed.


End WithEnvironment.

Import Examples.

Lemma failed_response_requeued_example :
  (str_set (RETRY_SINK_FILE live) = false /\
   loads json_loads (JStr "[1]") = Ok (JList [JInt 1]) /\
   save_statements (JList [JInt 1]) (env busy_world)
     = (Responded unavailable_retry_after_120, (1001, [])) /\
   success unavailable_retry_after_120 = false) /\
  queue (fst (run_one live (JStr "[1]") (busy_world, true)))
    = Some [Parsed (record (JStr "[1]") 1121)].
Proof.
  split; [repeat split; reflexivity |].
  exact (proj1 (proj2 (failed_response_requeued_iff_transient
                         time_time save_statements json_loads json_dumps
                         (backend := LRSBackendBase)
                         live (JStr "[1]") (JList [JInt 1]) unavailable_retry_after_120
                         (1001, []) busy_world true
                         eq_refl eq_refl eq_refl eq_refl)) eq_refl).
Defined.

(** C3, as the spec states it, fails: with a daily time configured, a 503
    answered with [Retry-After: 120] puts the content back with
    [ready_at] equal to the time of the re-queue, the 120 seconds ignored. *)
Lemma retry_after_ignored_with_daily_time :
  retry_after_delay unavailable_retry_after_120 = Some 120 /\
  time_time (env (fst (run_one live_daily (JStr "[1]") (busy_world, true)))) = 1001 /\
  queue (fst (run_one live_daily (JStr "[1]") (busy_world, true)))
    = Some [Parsed (record (JStr "[1]") 1001)] /\
  queue (fst (run_one live_daily (JStr "[1]") (busy_world, true)))
    <> Some [Parsed (record (JStr "[1]") (1001 + 120))].
Proof.
  repeat split; vm_compute; discriminate.
Qed.

Lemma transient_failure_requeue_example :
  (str_set (RETRY_SINK_FILE live) = false /\
   loads json_loads (JStr "[1]") = Ok (JList [JInt 1]) /\
   save_statements (JList [JInt 1]) (env busy_world)
     = (Responded unavailable_retry_after_120, (1001, [])) /\
   success unavailable_retry_after_120 = false /\
   is_not_found (LRSBackend := LRSBackendBase)
     (status unavailable_retry_after_120) (data unavailable_retry_after_120)
   || retryable_status (status unavailable_retry_after_120) = true) /\
  lines_of (queue (fst (run_one live (JStr "[1]") (busy_world, true))))
    = [Parsed (record (JStr "[1]") (1001 + 120))].
Proof.
  split; [repeat split; reflexivity |].
  exact (proj1 (transient_failure_requeue_ready_at
                  time_time save_statements json_loads json_dumps
                  (backend := LRSBackendBase)
                  live (JStr "[1]") (JList [JInt 1]) unavailable_retry_after_120
                  (1001, []) busy_world true
                  eq_refl eq_refl eq_refl eq_refl eq_refl)).
Defined.

(** C10, as the spec states it, fails: a content that is not JSON is left
    out of the queue although no response arrived, nothing being sent. *)
Lemma unparsable_content_dropped_unsent :
  json_loads "oops" = None /\
  queue (fst (run_one live (JStr "oops") (busy_world, true))) = queue busy_world /\
  env (fst (run_one live (JStr "oops") (busy_world, true))) = env busy_world /\
  log (fst (run_one live (JStr "oops") (busy_world, true))) = [ErrorBatch ValueError].
Proof.
  repeat split.
Qed.

Lemma live_send_requeues_example :
  str_set (RETRY_SINK_FILE live) = false /\
  queue (fst (run_one live (JStr "[1]") (failing_world, true)))
    = Some [Parsed (record (JStr "[1]") 1001)].
Proof.
  split; [reflexivity |].
  exact (proj2 (proj1 (live_send_requeues_unless_answered
                         time_time save_statements json_loads json_dumps
                         (backend := LRSBackendBase)
                         live (JStr "[1]") failing_world true eq_refl)
                  (JList [JInt 1]) OtherError (1001, []) eq_refl eq_refl)).
Defined.



(** C8.  The fallback of the sink branch, which its comment says writes
    the content as it is, as one line, writes a content that is not JSON and
    holds a line feed as two lines of the sink: a reader of the sink finds
    [oops] and [more], not the one line of the content.  [_save_to_sink]
    and the sink branch of [_process_batch] both do so. *)
Lemma unparsable_content_with_line_feed_spans_two_lines :
  json_loads two_line_text = None /\
  _save_to_sink json_loads json_dumps to_sink (JStr two_line_text) EmptyString
    = ((two_line_text ++ line_feed)%string, None) /\
  sink (fst (run_one to_sink (JStr two_line_text) (busy_world, true)))
    = (two_line_text ++ line_feed)%string /\
  text_lines (sink (fst (run_one to_sink (JStr two_line_text) (busy_world, true))))
    = ["oops"; "more"]%string /\
  text_lines (sink (fst (run_one to_sink (JStr two_line_text) (busy_world, true))))
    <> [two_line_text].
Proof.
  repeat split. vm_compute. discriminate.
Qed.

End WorkerProperties.

(** ** Laws of the queue store *)

Module QueueLaws.

Import RetryQueue View QueueFacts WorkerFacts Notions Examples MoreExamples.

Lemma subsequence_refl {A : Type} (l : list A) : subsequence l l.
Proof. induction l; constructor; assumption. Qed.

Lemma subsequence_map {A B : Type} (f : A -> B) (s l : list A) :
  subsequence s l -> subsequence (map f s) (map f l).
Proof. induction 1; simpl; constructor; assumption. Qed.

Lemma subsequence_app {A : Type} (s1 l1 s2 l2 : list A) :
  subsequence s1 l1 -> subsequence s2 l2 -> subsequence (s1 ++ s2) (l1 ++ l2).
Proof.
  induction 1; intros H2; simpl;
    [exact H2 | apply subsequence_skip; auto | apply subsequence_take; auto].
Qed.

Lemma subsequence_nil_l {A : Type} (l : list A) : subsequence [] l.
Proof. induction l; constructor; assumption. Qed.

Lemma subsequence_length {A : Type} (s l : list A) :
  subsequence s l -> (List.length s <= List.length l)%nat.
Proof. induction 1; simpl; lia. Qed.

Lemma subsequence_filter {A : Type} (f g : A -> bool) (l : list A) :
  (forall x, f x = true -> g x = true) ->
  subsequence (filter f l) (filter g l).
Proof.
  intros H. induction l as [| x l IH]; simpl; [constructor |].
  destruct (f x) eqn:Ef.
  - rewrite (H x Ef). now constructor.
  - destruct (g x); [constructor |]; assumption.
Qed.

Lemma filter_filter_imp {A : Type} (f g : A -> bool) (l : list A) :
  (forall x, f x = true -> g x = true) ->
  filter f (filter g l) = filter f l.
Proof.
  intros H. induction l as [| x l IH]; simpl; [reflexivity |].
  destruct (g x) eqn:Eg; simpl; rewrite IH; [reflexivity |].
  destruct (f x) eqn:Ef; [| reflexivity].
  rewrite (H x Ef) in Eg. discriminate.
Qed.

Lemma filter_filter_none {A : Type} (f g : A -> bool) (l : list A) :
  (forall x, g x = true -> f x = false) ->
  filter f (filter g l) = [].
Proof.
  intros H. induction l as [| x l IH]; simpl; [reflexivity |].
  destruct (g x) eqn:Eg; simpl; [rewrite (H x Eg) |]; exact IH.
Qed.

Lemma ready_later now later line :
  now <= later -> ready now line = true -> ready later line = true.
Proof.
  unfold ready, due. intros Hle H.
  destruct (ready_at_of line) as [t |]; [| discriminate].
  apply andb_true_iff in H as [Ht ->]. apply Z.leb_le in Ht.
  rewrite andb_true_r. apply Z.leb_le. lia.
Qed.

Lemma waiting_earlier now later line :
  now <= later -> waiting later line = true -> waiting now line = true.
Proof.
  unfold waiting. intros Hle H.
  apply andb_true_iff in H as [-> H]. apply negb_true_iff in H.
  destruct (ready now line) eqn:E; [| reflexivity].
  rewrite (ready_later _ _ _ Hle E) in H. discriminate.
Qed.

(** [read_ready] through the view, for a file that may not exist. *)
Lemma read_ready_any now q :
  read_ready now q =
  match first_crash (lines_of q) with
  | Some e => (Raise e, q)
  | None => (Ok (map content_of (filter (ready now) (lines_of q))),
             option_map (fun _ => filter (waiting now) (lines_of q)) q)
  end.
Proof.
  destruct q as [lines |]; [| reflexivity].
  cbn [lines_of option_map]. rewrite read_ready_view.
  destruct (first_crash lines); reflexivity.
Qed.

Lemma first_crash_app l1 l2 :
  first_crash (l1 ++ l2) =
  match first_crash l1 with
  | Some e => Some e
  | None => first_crash l2
  end.
Proof.
  induction l1 as [| line rest IH]; [reflexivity |].
  simpl. destruct (crash line); [reflexivity | exact IH].
Qed.

Lemma lines_of_enqueue_all cfg calls : forall q,
  lines_of (enqueue_all cfg calls q)
  = lines_of q ++ map (fun call => Parsed (record (call_content call)
                                             (call_ready_at cfg call))) calls.
Proof.
  unfold enqueue_all.
  induction calls as [| call rest IH]; intros q; simpl.
  - now rewrite app_nil_r.
  - rewrite IH. unfold enqueue. rewrite lines_of_append_line, <- app_assoc.
    reflexivity.
Qed.

(** X1.  Round trip of the store.  After any calls of [enqueue] whose
    contents are true values and whose [ready_at] has come by [now], made on
    a file that [read_ready] can read, [read_ready] at [now] returns what
    was ready in the file before, followed by the enqueued contents in the
    order of the calls, and leaves in the file what was waiting before. *)
Theorem enqueue_then_read_ready (cfg : Settings) (now : Z)
    (calls : list enqueue_call) (q : queue_file) :
  forallb readable (lines_of q) = true ->
  (forall call, In call calls ->
                truthy (call_content call) = true /\ call_ready_at cfg call <= now) ->
  fst (read_ready now (enqueue_all cfg calls q))
    = Ok (map content_of (filter (ready now) (lines_of q)) ++ map call_content calls) /\
  lines_of (snd (read_ready now (enqueue_all cfg calls q)))
    = filter (waiting now) (lines_of q).
Proof.
  intros Hq Hcalls.
  set (new := map (fun call => Parsed (record (call_content call)
                                         (call_ready_at cfg call))) calls).
  assert (Hready : forall call, In call calls ->
            ready now (Parsed (record (call_content call) (call_ready_at cfg call)))
            = true).
  { intros call Hin. destruct (Hcalls call Hin) as [Hc Ht].
    rewrite ready_record, Hc. apply andb_true_iff. split; [| reflexivity].
    now apply Z.leb_le. }
  assert (Hr : filter (ready now) new = new).
  { apply forallb_filter_id, forallb_forall. intros line Hin.
    apply in_map_iff in Hin as [call [<- Hin]]. now apply Hready. }
  assert (Hw : filter (waiting now) new = []).
  { rewrite <- Hr. apply filter_filter_none. intros line.
    apply ready_not_waiting. }
  assert (Hc : first_crash new = None).
  { apply first_crash_none, forallb_forall. intros line Hin.
    apply in_map_iff in Hin as [call [<- Hin]]. reflexivity. }
  rewrite read_ready_any, lines_of_enqueue_all. fold new.
  rewrite first_crash_app, Hc.
  apply first_crash_none in Hq. rewrite Hq. cbn [fst snd].
  rewrite !filter_app, Hr, Hw, app_nil_r, map_app. split.
  - f_equal. f_equal. unfold new. rewrite map_map. reflexivity.
  - destruct (enqueue_all cfg calls q) as [ls |] eqn:E; [reflexivity |].
    cbn [option_map lines_of].
    assert (H := lines_of_enqueue_all cfg calls q). rewrite E in H.
    cbn [lines_of] in H. symmetry in H. apply app_eq_nil in H as [-> _].
    reflexivity.
Qed.

(** Three contents enqueued on a store that does not exist yet come back in
    order, and the store is left empty. *)
Lemma enqueue_then_read_ready_example :
  (forallb readable (lines_of None) = true /\
   forall call, In call abc_calls ->
                truthy (call_content call) = true /\
                call_ready_at live_daily call <= 3) /\
  fst (read_ready 3 (enqueue_all live_daily abc_calls None))
    = Ok [JStr "A"; JStr "B"; JStr "C"] /\
  lines_of (snd (read_ready 3 (enqueue_all live_daily abc_calls None))) = [].
Proof.
  assert (H : forall call, In call abc_calls ->
                truthy (call_content call) = true /\
                call_ready_at live_daily call <= 3).
  { intros call [<- | [<- | [<- | []]]]; split; try reflexivity;
      vm_compute; discriminate. }
  split; [split; [reflexivity | exact H] |].
  exact (enqueue_then_read_ready live_daily 3 abc_calls None eq_refl H).
Defined.

(** X2.  A second [read_ready] at the same time returns nothing and leaves
    the file as the first call left it; after a call that raised it raises
    the same exception again. *)
Theorem read_ready_twice (now : Z) (q : queue_file) :
  read_ready now (snd (read_ready now q))
  = (match fst (read_ready now q) with
     | Ok _ => Ok []
     | Raise e => Raise e
     end,
     snd (read_ready now q)).
Proof.
  rewrite (read_ready_any now q).
  destruct (first_crash (lines_of q)) eqn:Ec; cbn [fst snd].
  - rewrite read_ready_any, Ec. reflexivity.
  - rewrite read_ready_any.
    assert (Hl : lines_of (option_map (fun _ => filter (waiting now) (lines_of q)) q)
                 = filter (waiting now) (lines_of q)).
    { destruct q; reflexivity. }
    rewrite Hl, first_crash_waiting.
    rewrite filter_filter_none.
    2:{ intros line H. destruct (ready now line) eqn:E; [| reflexivity].
        rewrite (ready_not_waiting _ _ E) in H. discriminate. }
    rewrite filter_filter_imp by auto.
    destruct q; reflexivity.
Qed.

Lemma permutation_two_steps {A : Type} (p p' w : A -> bool) (l : list A) :
  (forall x, p x = true -> p' x = true) ->
  (forall x, p x = true -> w x = false) ->
  (forall x, p' x = true -> p x = false -> w x = true) ->
  Permutation (filter p l ++ filter p' (filter w l)) (filter p' l).
Proof.
  intros H1 H2 H3. induction l as [| x l IH]; simpl; [constructor |].
  destruct (p x) eqn:Ep.
  - rewrite (H1 x Ep), (H2 x Ep). simpl. now constructor.
  - destruct (p' x) eqn:Ep'.
    + rewrite (H3 x Ep' Ep). simpl. rewrite Ep'.
      apply Permutation_sym, Permutation_cons_app, Permutation_sym, IH.
    + destruct (w x); simpl; [rewrite Ep' |]; exact IH.
Qed.

(** X3.  Reading in two steps.  When a call at [now] has returned, a second
    call at a later time returns too; the contents of the two calls
    together are, up to order, those a single call at the later time would
    have returned on the first file, each call's contents appear among them
    in the same order, and the file is left the same either way. *)
Theorem read_ready_in_two_steps (now later : Z) (q : queue_file)
    (first_contents : list json) :
  now <= later ->
  fst (read_ready now q) = Ok first_contents ->
  exists second_contents at_once,
    fst (read_ready later (snd (read_ready now q))) = Ok second_contents /\
    fst (read_ready later q) = Ok at_once /\
    Permutation (first_contents ++ second_contents) at_once /\
    subsequence first_contents at_once /\
    subsequence second_contents at_once /\
    snd (read_ready later (snd (read_ready now q))) = snd (read_ready later q).
Proof.
  intros Hle. rewrite (read_ready_any now q), (read_ready_any later q).
  destruct (first_crash (lines_of q)) eqn:Ec; [discriminate |].
  cbn [fst snd]. intros [= <-].
  assert (Hl : lines_of (option_map (fun _ => filter (waiting now) (lines_of q)) q)
               = filter (waiting now) (lines_of q)).
  { destruct q; reflexivity. }
  rewrite read_ready_any, Hl, first_crash_waiting. cbn [fst snd].
  eexists. eexists. split; [reflexivity |]. split; [reflexivity |].
  split; [| split; [| split]].
  - rewrite <- map_app. apply Permutation_map, permutation_two_steps.
    + intros x. apply ready_later, Hle.
    + intros x. apply ready_not_waiting.
    + intros x Hx Hn. unfold waiting. rewrite Hn, andb_true_r.
      eapply ready_well_formed, Hx.
  - apply subsequence_map, subsequence_filter. intros x. apply ready_later, Hle.
  - apply subsequence_map.
    clear. induction (lines_of q) as [| x l IH]; simpl; [constructor |].
    destruct (waiting now x); simpl.
    + destruct (ready later x); [apply subsequence_take | ]; exact IH.
    + destruct (ready later x); [apply subsequence_skip |]; exact IH.
  - rewrite filter_filter_imp by (intros x; apply waiting_earlier, Hle).
    destruct q; reflexivity.
Qed.

Lemma read_ready_in_two_steps_example :
  (5 <= 10 /\ fst (read_ready 5 (Some abc_file)) = Ok [JStr "A"; JStr "B"]) /\
  exists second_contents at_once,
    fst (read_ready 10 (snd (read_ready 5 (Some abc_file)))) = Ok second_contents /\
    fst (read_ready 10 (Some abc_file)) = Ok at_once /\
    Permutation ([JStr "A"; JStr "B"] ++ second_contents) at_once /\
    subsequence [JStr "A"; JStr "B"] at_once /\
    subsequence second_contents at_once /\
    snd (read_ready 10 (snd (read_ready 5 (Some abc_file))))
    = snd (read_ready 10 (Some abc_file)).
Proof.
  assert (H : 5 <= 10) by lia.
  split; [split; [exact H | reflexivity] |].
  exact (read_ready_in_two_steps 5 10 (Some abc_file) _ H eq_refl).
Defined.

(** X4.  A stored line that holds JSON which is not a well-formed record
    (not an object, or a [ready_at] that [int] rejects) blocks the store:
    [read_ready] raises the same exception at every time and after any
    further calls of [enqueue] and [read_ready], and no stored line is ever
    removed, the file only receiving what is enqueued. *)
Theorem unreadable_record_blocks_read_ready (v : json) (lines : list stored_line) :
  In (Parsed v) lines ->
  well_formed (Parsed v) = false ->
  exists e,
    forall ops now,
      fst (read_ready now (apply_ops ops (Some lines))) = Raise e /\
      exists added, apply_ops ops (Some lines) = Some (lines ++ added).
Proof.
  intros Hin Hwf.
  assert (Hc : exists e, first_crash lines = Some e).
  { destruct (first_crash lines) as [e |] eqn:E; [eauto |].
    apply first_crash_none in E.
    pose proof (proj1 (forallb_forall _ _) E _ Hin) as H.
    unfold readable in H. rewrite Hwf in H. discriminate. }
  destruct Hc as [e He]. exists e.
  assert (Hraise : forall added now,
             read_ready now (Some (lines ++ added)) = (Raise e, Some (lines ++ added))).
  { intros added now. rewrite read_ready_view, first_crash_app, He. reflexivity. }
  assert (Hops : forall ops added,
             exists added', apply_ops ops (Some (lines ++ added))
                            = Some (lines ++ added')).
  { unfold apply_ops. induction ops as [| op rest IH]; intros added;
      cbn [fold_left]; [eauto |].
    destruct op as [cfg t c d | t]; cbn [apply_op].
    - unfold enqueue, append_line. rewrite <- app_assoc. apply IH.
    - rewrite Hraise. cbn [snd]. apply IH. }
  intros ops now. destruct (Hops ops []) as [added Hadded].
  rewrite app_nil_r in Hadded. rewrite Hadded, Hraise. eauto.
Qed.

Lemma unreadable_record_blocks_read_ready_example :
  (In stray_line (abc_file ++ [stray_line]) /\ well_formed stray_line = false) /\
  exists e,
    forall ops now,
      fst (read_ready now (apply_ops ops (Some (abc_file ++ [stray_line])))) = Raise e /\
      exists added,
        apply_ops ops (Some (abc_file ++ [stray_line]))
        = Some ((abc_file ++ [stray_line]) ++ added).
Proof.
  assert (H : In stray_line (abc_file ++ [stray_line])).
  { apply in_or_app. right. left. reflexivity. }
  split; [split; [exact H | reflexivity] |].
  exact (unreadable_record_blocks_read_ready (JInt 42) _ H eq_refl).
Defined.

End QueueLaws.

(** ** Laws of the dispatch worker *)

Module WorkerLaws.

Import RetryQueue View QueueFacts WorkerFacts Worker Notions QueueLaws.

Lemma world_eta {Env : Type} (w : @world Env) :
  mkWorld (queue w) (sink w) (env w) (log w) = w.
Proof. destruct w; reflexivity. Qed.

Lemma repeat_snoc {A : Type} (x : A) (n : nat) :
  repeat x n ++ [x] = x :: repeat x n.
Proof. induction n; simpl; congruence. Qed.

Lemma in_lstrip c cs :
  In c cs -> is_space c = false -> In c (lstrip cs).
Proof.
  intros Hin Hc. induction cs as [| c0 rest IH]; [contradiction |].
  simpl. destruct (is_space c0) eqn:E; [| exact Hin].
  destruct Hin as [-> | Hin]; [congruence | auto].
Qed.

Lemma in_strip c cs :
  In c cs -> is_space c = false -> In c (strip cs).
Proof.
  intros Hin Hc. unfold strip.
  apply -> in_rev. apply in_lstrip; [| exact Hc].
  apply -> in_rev. now apply in_lstrip.
Qed.

Lemma digits_value_rejects c cs : forall acc after_digit,
  In c cs -> digit_val c = None -> (c =? underscore)%N = false ->
  digits_value acc after_digit cs = None.
Proof.
  induction cs as [| c0 rest IH]; intros acc after_digit Hin Hd Hu; [contradiction |].
  simpl. destruct (N.eqb_spec c0 underscore) as [-> | Hne].
  - destruct after_digit; [| reflexivity].
    apply IH; auto. destruct Hin as [<- | Hin]; [| exact Hin].
    rewrite N.eqb_refl in Hu. discriminate.
  - destruct (digit_val c0) eqn:E; [| reflexivity].
    apply IH; auto. destruct Hin as [-> | Hin]; [congruence | exact Hin].
Qed.

(** A text with a character that no integer text holds is rejected by
    [int]. *)
Lemma int_of_str_rejects text c :
  In c (code_points text) -> not_in_integer c = true ->
  int_of_str text = None.
Proof.
  unfold not_in_integer. intros Hin Hc.
  destruct (digit_val c) eqn:Hd; [discriminate |].
  apply andb_true_iff in Hc as [Hc Hs]. apply andb_true_iff in Hc as [Hc Hp].
  apply andb_true_iff in Hc as [Hu Hm].
  apply negb_true_iff in Hs, Hp, Hm, Hu.
  pose proof (in_strip c _ Hin Hs) as Hin'.
  unfold int_of_str. cbv zeta.
  destruct (int_max_str_digits <? _); [reflexivity |].
  destruct (strip (code_points text)) as [| c0 rest]; [reflexivity |].
  destruct (N.eqb_spec c0 minus_sign) as [-> | _].
  { destruct Hin' as [<- | Hin']; [rewrite N.eqb_refl in Hm; discriminate |].
    now rewrite (digits_value_rejects c rest 0 false Hin' Hd Hu). }
  destruct (N.eqb_spec c0 plus_sign) as [-> | _].
  { destruct Hin' as [<- | Hin']; [rewrite N.eqb_refl in Hp; discriminate |].
    exact (digits_value_rejects c rest 0 false Hin' Hd Hu). }
  exact (digits_value_rejects c (c0 :: rest) 0 false Hin' Hd Hu).
Qed.

(** [int] on texts: white space and digits of other scripts are taken, the
    separator U+001F is not, nor are more than 4300 digits. *)
Lemma int_of_str_examples :
  int_of_str " 12 " = Some 12 /\
  int_of_str "-1_000" = Some (-1000) /\
  int_of_str (text_of [1633; 1634]%N) = Some 12 /\
  int_of_str (text_of [160; 49; 50]%N) = Some 12 /\
  int_of_str (text_of [31; 49; 50]%N) = None /\
  int_of_str "12:30" = None /\
  int_of_str (string_of_list_ascii (repeat "1"%char 4301)) = None.
Proof.
  vm_compute. repeat split.
Qed.

(** The length of the wait: never negative and, when today's window is
    within a day of the current time, more than zero, at most 86400 seconds
    and ending at a window. *)
Lemma sleep_for_reaches_next_window (target now_ts : Z) :
  0 <= sleep_for target now_ts /\
  (now_ts - 86400 < target <= now_ts + 86400 ->
     0 < sleep_for target now_ts <= 86400 /\
     (now_ts < target -> now_ts + sleep_for target now_ts = target) /\
     (target <= now_ts -> now_ts + sleep_for target now_ts = target + 86400)).
Proof.
  unfold sleep_for. destruct (Z.leb_spec target now_ts); lia.
Qed.

Lemma sleep_for_reaches_next_window_example :
  (1000 - 86400 < 400 <= 1000 + 86400) /\
  1000 + sleep_for 400 1000 = 400 + 86400.
Proof.
  assert (H : 1000 - 86400 < 400 <= 1000 + 86400) by lia.
  split; [exact H |].
  apply (proj2 (proj2 (proj2 (sleep_for_reaches_next_window 400 1000) H))). lia.
Defined.

Section WithEnvironment.

Context {Env : Type}.
Variable time_time : Env -> Z.
Variable save_statements : json -> Env -> send_result * Env.
Variable json_loads : string -> option json.
Variable json_dumps : json -> string.
Context {backend : LRSBackend}.

Local Abbreviation loads := (Worker.loads json_loads).
Local Abbreviation requeue := (Worker.requeue time_time).
Local Abbreviation process_one :=
  (Worker.process_one time_time save_statements json_loads json_dumps).
Local Abbreviation _process_batch :=
  (Worker._process_batch time_time save_statements json_loads json_dumps).
Local Abbreviation cycle :=
  (Worker.cycle time_time save_statements json_loads json_dumps).
Local Abbreviation sink_entries := (Notions.sink_entries json_loads json_dumps).
Local Abbreviation turn cfg :=
  (fun (st : world * bool) content_json => process_one cfg content_json st).

Lemma write_each_entries items : forall written,
  forallb writable (map json_dumps items) = true ->
  write_each json_dumps written items
  = ((written ++ unlines (map json_dumps items))%string, None).
Proof.
  induction items as [| stmt rest IH]; intros written H.
  - cbn [map write_each]. unfold unlines. cbn [map String.concat].
    now rewrite string_app_nil.
  - cbn [map forallb] in H. apply andb_true_iff in H as [Hw Hrest].
    cbn [map write_each]. unfold write. unfold writable in Hw. rewrite Hw.
    rewrite (IH _ Hrest), unlines_cons. now rewrite !string_app_assoc.
Qed.

(** The text of a content string whose entries can all be written. *)
Lemma sink_text_string text :
  forallb writable (sink_entries text) = true ->
  sink_text json_loads json_dumps (JStr text) = (unlines (sink_entries text), None).
Proof.
  unfold sink_text, Worker.loads, Notions.sink_entries.
  destruct (json_loads text) as [parsed |].
  - intros H.
    assert (Hone : forall v, forallb writable [json_dumps v] = true ->
              write_each json_dumps EmptyString [v]
              = (unlines [json_dumps v], None)).
    { intros v Hv. exact (write_each_entries [v] EmptyString Hv). }
    destruct parsed; try (rewrite (Hone _ H); reflexivity).
    now rewrite (write_each_entries items EmptyString H).
  - cbn [forallb]. rewrite andb_true_r. unfold writable, write. intros ->.
    unfold unlines. cbn [map String.concat]. reflexivity.
Qed.

Lemma process_one_sink cfg text (w : world) all_ok :
  str_set (RETRY_SINK_FILE cfg) = true ->
  forallb writable (sink_entries text) = true ->
  process_one cfg (JStr text) (w, all_ok)
  = (mkWorld (queue w) (sink w ++ unlines (sink_entries text)) (env w)
             (log w ++ [InfoSinkSaved]), all_ok).
Proof.
  intros Hsink Hw. unfold Worker.process_one.
  rewrite Hsink, (sink_text_string text Hw). reflexivity.
Qed.

(** The sink branch touches neither the queue nor the outside world. *)
Lemma process_one_sink_only cfg content (st : world * bool) :
  str_set (RETRY_SINK_FILE cfg) = true ->
  queue (fst (process_one cfg content st)) = queue (fst st) /\
  env (fst (process_one cfg content st)) = env (fst st).
Proof.
  intros Hsink. destruct st as [w all_ok]. unfold Worker.process_one.
  rewrite Hsink. destruct (sink_text _ _ content) as [text [e |]]; split; reflexivity.
Qed.

Lemma fold_sink_only cfg contents : forall st : world * bool,
  str_set (RETRY_SINK_FILE cfg) = true ->
  queue (fst (fold_left (turn cfg) contents st)) = queue (fst st) /\
  env (fst (fold_left (turn cfg) contents st)) = env (fst st).
Proof.
  induction contents as [| c rest IH]; intros st Hsink; [split; reflexivity |].
  cbn [fold_left]. destruct (IH (process_one cfg c st) Hsink) as [Hq He].
  destruct (process_one_sink_only cfg c st Hsink) as [Hq1 He1].
  split; congruence.
Qed.

(** What one turn does to the flag, the queue and the log. *)
Lemma process_one_cases cfg content (w : world) all_ok :
  let w1 := fst (process_one cfg content (w, all_ok)) in
  let ok1 := snd (process_one cfg content (w, all_ok)) in
  (ok1 = true ->
     all_ok = true /\ queue w1 = queue w /\
     log w1 = log w ++ [if str_set (RETRY_SINK_FILE cfg)
                        then InfoSinkSaved else InfoResent] /\
     (str_set (RETRY_SINK_FILE cfg) = false -> sink w1 = sink w)) /\
  (exists requeued,
      lines_of (queue w1) = lines_of (queue w) ++ map stored requeued /\
      subsequence (map fst requeued) [content]).
Proof.
  cbv zeta. unfold Worker.process_one.
  assert (Hnone : forall q : queue_file,
             exists requeued : list (json * Z),
               lines_of q = lines_of q ++ map stored requeued /\
               subsequence (map fst requeued) [content]).
  { intros q. exists []. rewrite app_nil_r. split; [reflexivity |].
    apply subsequence_nil_l. }
  assert (Hsome : forall cfg' now d (q : queue_file),
             exists requeued : list (json * Z),
               lines_of (enqueue cfg' now content d q)
               = lines_of q ++ map stored requeued /\
               subsequence (map fst requeued) [content]).
  { intros cfg' now d q. exists [(content, enqueue_ready_at cfg' now d)].
    unfold enqueue. rewrite lines_of_append_line. split; [reflexivity |].
    apply subsequence_refl. }
  destruct (str_set (RETRY_SINK_FILE cfg)).
  - destruct (sink_text _ _ content) as [text [e |]]; cbn [fst snd].
    + split; [discriminate | apply Hnone].
    + split; [| apply Hnone]. intros ->.
      split; [reflexivity |]. split; [reflexivity |]. split; [reflexivity |].
      discriminate.
  - destruct (loads content) as [payload | e]; cbn [fst snd];
      [| split; [discriminate | apply Hnone]].
    destruct (save_statements payload (env w)) as [result env'].
    destruct result as [response | []]; cbn [fst snd];
      try (split; [discriminate | apply Hsome]).
    destruct (negb (success response)); cbn [fst snd].
    + destruct (_ || _); cbn [fst snd];
        (split; [discriminate |]); [apply Hsome | apply Hnone].
    + split; [| apply Hnone]. intros ->.
      split; [reflexivity |]. split; [reflexivity |]. split; [reflexivity |].
      reflexivity.
Qed.

Lemma process_batch_cons cfg content contents (w : world) :
  _process_batch cfg (content :: contents) w
  = fold_left (turn cfg) contents (process_one cfg content (w, true)).
Proof. reflexivity. Qed.

Lemma fold_cases cfg contents : forall (w : world) all_ok,
  let w' := fst (fold_left (turn cfg) contents (w, all_ok)) in
  let ok' := snd (fold_left (turn cfg) contents (w, all_ok)) in
  (ok' = true ->
     all_ok = true /\ queue w' = queue w /\
     log w' = log w ++ repeat (if str_set (RETRY_SINK_FILE cfg)
                               then InfoSinkSaved else InfoResent)
                              (List.length contents) /\
     (str_set (RETRY_SINK_FILE cfg) = false -> sink w' = sink w)) /\
  (exists requeued,
      lines_of (queue w') = lines_of (queue w) ++ map stored requeued /\
      subsequence (map fst requeued) contents).
Proof.
  induction contents as [| c rest IH]; intros w all_ok; cbv zeta.
  - cbn [fold_left fst snd List.length repeat]. split.
    + intros ->. rewrite app_nil_r. auto.
    + exists []. rewrite app_nil_r. split; [reflexivity | constructor].
  - cbn [fold_left]. cbv beta.
    destruct (process_one cfg c (w, all_ok)) as [w1 ok1] eqn:E1.
    pose proof (process_one_cases cfg c w all_ok) as [Ht Hq].
    rewrite E1 in Ht, Hq. cbn [fst snd] in Ht, Hq.
    destruct (IH w1 ok1) as [IHt IHq]. split.
    + intros Hok. destruct (IHt Hok) as (-> & Hq' & Hl' & Hs').
      destruct (Ht eq_refl) as (-> & Hq1 & Hl1 & Hs1).
      split; [reflexivity |]. split; [congruence |]. split.
      * rewrite Hl', Hl1, <- app_assoc. reflexivity.
      * intros Hlive. rewrite (Hs' Hlive). auto.
    + destruct Hq as (rq1 & Hq1 & Hs1). destruct IHq as (rq2 & Hq2 & Hs2).
      exists (rq1 ++ rq2). rewrite Hq2, Hq1, map_app, <- app_assoc.
      split; [reflexivity |]. rewrite map_app.
      change (c :: rest) with ([c] ++ rest). now apply subsequence_app.
Qed.

(** X5.  A batch that reports success has re-queued nothing: the queue is
    as before, and the log has gained one line per content, of a send that
    succeeded (or of a save in the sink when a sink file is configured); in
    live mode the sink is untouched. *)
Theorem batch_success_leaves_queue (cfg : Settings) (contents : list json) (w : world) :
  snd (_process_batch cfg contents w) = true ->
  queue (fst (_process_batch cfg contents w)) = queue w /\
  log (fst (_process_batch cfg contents w))
    = log w ++ repeat (if str_set (RETRY_SINK_FILE cfg)
                       then InfoSinkSaved else InfoResent)
                      (List.length contents) /\
  (str_set (RETRY_SINK_FILE cfg) = false ->
     sink (fst (_process_batch cfg contents w)) = sink w).
Proof.
  intros Hok. destruct (fold_cases cfg contents w true) as [Ht _].
  destruct (Ht Hok) as (_ & Hq & Hl & Hs). auto.
Qed.

(** X6.  A batch only adds to the queue, and only records of its own
    contents: the queue afterwards is the queue before followed by new
    records whose contents are contents of the batch, each at most once and
    in the order of the batch. *)
Theorem batch_requeues_only_its_contents (cfg : Settings) (contents : list json)
    (w : world) :
  exists requeued : list (json * Z),
    lines_of (queue (fst (_process_batch cfg contents w)))
    = lines_of (queue w) ++ map stored requeued /\
    subsequence (map fst requeued) contents.
Proof.
  exact (proj2 (fold_cases cfg contents w true)).
Qed.

(** X7.  When the probe succeeds, the cycle deals with the ready contents
    exactly as one batch over all of them would. *)
Theorem successful_probe_is_one_batch (cfg : Settings) (w : world)
    (first : json) (rest : list json) (q1 : queue_file) :
  read_ready (time_time (env w)) (queue w) = (Ok (first :: rest), q1) ->
  snd (_process_batch cfg [first] (set_queue w q1)) = true ->
  cycle cfg w
  = (fst (_process_batch cfg (first :: rest) (set_queue w q1)), WaitingForWindow).
Proof.
  intros Hread Hok. unfold Worker.cycle. rewrite Hread. cbn [firstn skipn].
  unfold Worker._process_batch in *. cbn [fold_left] in *.
  destruct (process_one cfg first (set_queue w q1, true)) as [w1 ok].
  cbn [snd] in Hok. subst ok.
  destruct rest; reflexivity.
Qed.

Lemma sink_fold cfg texts : forall (w : world) all_ok,
  str_set (RETRY_SINK_FILE cfg) = true ->
  forallb writable (flat_map sink_entries texts) = true ->
  fold_left (turn cfg) (map JStr texts) (w, all_ok)
  = (mkWorld (queue w) (sink w ++ unlines (flat_map sink_entries texts)) (env w)
             (log w ++ repeat InfoSinkSaved (List.length texts)), all_ok).
Proof.
  induction texts as [| text rest IH]; intros w all_ok Hsink Hw.
  - cbn [map fold_left flat_map List.length repeat].
    unfold unlines. cbn [map String.concat].
    now rewrite string_app_nil, app_nil_r, world_eta.
  - cbn [map fold_left flat_map List.length repeat]. cbv beta.
    cbn [flat_map] in Hw. rewrite forallb_app in Hw.
    apply andb_true_iff in Hw as [Hw1 Hw2].
    rewrite (process_one_sink cfg text w all_ok Hsink Hw1), (IH _ _ Hsink Hw2).
    cbn [queue sink env log].
    now rewrite unlines_app, string_app_assoc, <- app_assoc.
Qed.

Lemma sink_batch (cfg : Settings) (texts : list string) (w : world) :
  str_set (RETRY_SINK_FILE cfg) = true ->
  forallb writable (flat_map sink_entries texts) = true ->
  _process_batch cfg (map JStr texts) w
  = (mkWorld (queue w) (sink w ++ unlines (flat_map sink_entries texts)) (env w)
             (log w ++ repeat InfoSinkSaved (List.length texts)), true).
Proof.
  intros Hsink Hw. exact (sink_fold cfg texts w true Hsink Hw).
Qed.

(** X8.  With a sink file configured a batch only writes to the sink: the
    queue is untouched and nothing is sent (the outside world is as
    before), whatever the contents.  For content strings whose entries can
    all be written (none holds a lone surrogate), the entries of every
    content are appended in the order of the batch, one log line is made
    per content and the batch reports success. *)
Theorem sink_batch_archives_everything (cfg : Settings) (w : world) :
  str_set (RETRY_SINK_FILE cfg) = true ->
  (forall contents : list json,
      queue (fst (_process_batch cfg contents w)) = queue w /\
      env (fst (_process_batch cfg contents w)) = env w) /\
  (forall texts : list string,
      forallb writable (flat_map sink_entries texts) = true ->
      _process_batch cfg (map JStr texts) w
      = (mkWorld (queue w) (sink w ++ unlines (flat_map sink_entries texts)) (env w)
                 (log w ++ repeat InfoSinkSaved (List.length texts)), true)).
Proof.
  intros Hsink. split.
  - intros contents. exact (fold_sink_only cfg contents (w, true) Hsink).
  - intros texts Hw. exact (sink_fold cfg texts w true Hsink Hw).
Qed.

(** X9.  With a sink file configured, a cycle on a readable file whose
    ready contents are strings with entries that can all be written (none
    holds a lone surrogate) moves every ready content to the sink, in the
    order of the file, leaves in the queue exactly the records that were
    waiting, sends nothing and goes back to waiting. *)
Theorem sink_cycle_archives_ready (cfg : Settings) (w : world)
    (lines : list stored_line) (texts : list string) :
  str_set (RETRY_SINK_FILE cfg) = true ->
  queue w = Some lines ->
  forallb readable lines = true ->
  map content_of (filter (ready (time_time (env w))) lines) = map JStr texts ->
  forallb writable (flat_map sink_entries texts) = true ->
  cycle cfg w
  = (mkWorld (Some (filter (waiting (time_time (env w))) lines))
             (sink w ++ unlines (flat_map sink_entries texts)) (env w)
             (log w ++ repeat InfoSinkSaved (List.length texts)),
     WaitingForWindow).
Proof.
  intros Hsink Hq Hreadable Htexts Hw. unfold Worker.cycle.
  rewrite Hq, read_ready_view.
  apply first_crash_none in Hreadable. rewrite Hreadable, Htexts.
  set (w0 := set_queue w (Some (filter (waiting (time_time (env w))) lines))).
  destruct texts as [| text rest].
  - cbn [map flat_map List.length repeat]. unfold unlines. cbn [map String.concat].
    now rewrite string_app_nil, app_nil_r.
  - cbn [map firstn skipn].
    cbn [flat_map] in Hw. rewrite forallb_app in Hw.
    apply andb_true_iff in Hw as [Hw1 Hw2].
    assert (Hw1' : forallb writable (flat_map sink_entries [text]) = true).
    { cbn [flat_map]. now rewrite app_nil_r. }
    pose proof (sink_batch cfg [text] w0 Hsink Hw1') as Hfirst.
    cbn [map] in Hfirst. rewrite Hfirst.
    set (w1 := mkWorld _ _ _ _).
    destruct rest as [| text' rest'].
    + reflexivity.
    + cbn [map].
      change (JStr text' :: map JStr rest') with (map JStr (text' :: rest')).
      rewrite (sink_batch cfg (text' :: rest') w1 Hsink Hw2).
      subst w1 w0. cbn [fst queue sink env log set_queue].
      f_equal. f_equal.
      * rewrite string_app_assoc, <- unlines_app. cbn [flat_map].
        now rewrite app_nil_r.
      * cbn [List.length repeat]. now rewrite <- app_assoc.
Qed.

(** X10.  After a failed probe in live mode the queue holds the records
    that were waiting, then the probe if its failure put it back (a
    transient status or an exception of the send), then every other
    extracted content, in order: all extracted contents are stored again
    unless the probe failed for good, in which case it alone is gone. *)
Theorem failed_probe_queue (cfg : Settings) (w : world) (first : json)
    (rest : list json) (q1 : queue_file) (payload : json)
    (result : send_result) (env' : Env) :
  str_set (RETRY_SINK_FILE cfg) = false ->
  read_ready (time_time (env w)) (queue w) = (Ok (first :: rest), q1) ->
  loads first = Ok payload ->
  save_statements payload (env w) = (result, env') ->
  failed result = true ->
  let now := time_time env' in
  lines_of (queue (fst (cycle cfg w)))
  = lines_of q1
    ++ (if requeued_by result
        then [stored (first, enqueue_ready_at cfg now (requeue_delay result))]
        else [])
    ++ map (fun c => stored (c, enqueue_ready_at cfg now None)) rest /\
  env (fst (cycle cfg w)) = env'.
Proof.
  intros Hlive Hread Hloads Hsend Hfailed. cbv zeta.
  unfold Worker.cycle. rewrite Hread. cbn [firstn skipn].
  unfold Worker._process_batch. cbn [fold_left].
  rewrite (process_one_live _ _ _ _ cfg first payload result env'
             (set_queue w q1) true Hlive Hloads Hsend).
  cbv zeta.
  assert (Hprobe :
    exists w1 : world,
      (match result with
       | Responded response =>
           if negb (success response) then
             if is_not_found (status response) (data response)
                || retryable_status (status response)
             then (requeue cfg first (retry_after_delay response)
                           (set_env (set_queue w q1) env'), false)
             else (logger (set_env (set_queue w q1) env')
                          (ErrorResend (status response) (data response)), false)
           else (logger (set_env (set_queue w q1) env') InfoResent, true)
       | SendRaised NetworkError =>
           (requeue cfg first None
                    (logger (set_env (set_queue w q1) env') WarningNetwork), false)
       | SendRaised OtherError =>
           (requeue cfg first None
                    (logger (set_env (set_queue w q1) env') ErrorSend), false)
       end) = (w1, false) /\
      env w1 = env' /\
      lines_of (queue w1)
      = lines_of q1
        ++ (if requeued_by result
            then [stored (first, enqueue_ready_at cfg (time_time env')
                                   (requeue_delay result))]
            else [])).
  { destruct result as [response | err]; cbn [failed] in Hfailed.
    - rewrite Hfailed. cbn [requeued_by requeue_delay]. rewrite Hfailed. cbn [andb].
      destruct (_ || _); eexists; (split; [reflexivity |]); split; try reflexivity.
      + cbn [Worker.requeue queue logger set_queue set_env env].
        unfold enqueue. now rewrite lines_of_append_line.
      + cbn [queue logger set_env set_queue]. now rewrite app_nil_r.
    - destruct err; eexists; (split; [reflexivity |]); split; try reflexivity;
        cbn [Worker.requeue queue logger set_queue set_env env requeued_by requeue_delay];
        unfold enqueue; now rewrite lines_of_append_line. }
  destruct Hprobe as (w1 & -> & He & Hq).
  destruct rest as [| c rest'].
  - cbn [fst map]. rewrite Hq, app_nil_r. auto.
  - cbn [fst].
    destruct (requeue_all time_time cfg (c :: rest') w1) as (Hq' & He' & _).
    rewrite Hq', He', Hq, He, <- app_assoc. auto.
Qed.

Lemma cycle_queue (cfg : Settings) (w : world) :
  let now := time_time (env w) in
  match fst (read_ready now (queue w)) with
  | Raise _ => queue (fst (cycle cfg w)) = queue w
  | Ok contents =>
      exists requeued : list (json * Z),
        lines_of (queue (fst (cycle cfg w)))
        = filter (waiting now) (lines_of (queue w)) ++ map stored requeued /\
        subsequence (map fst requeued) contents
  end.
Proof.
  cbv zeta. unfold Worker.cycle. rewrite (read_ready_any _ (queue w)).
  destruct (first_crash (lines_of (queue w))) eqn:Ec; cbn [fst]; [reflexivity |].
  set (q1 := option_map _ (queue w)).
  assert (Hq1 : lines_of q1 = filter (waiting (time_time (env w))) (lines_of (queue w))).
  { unfold q1. destruct (queue w); reflexivity. }
  rewrite <- Hq1.
  destruct (map content_of _) as [| first rest].
  - exists []. cbn [fst queue set_queue map]. rewrite app_nil_r.
    split; [reflexivity | constructor].
  - cbn [firstn skipn].
    destruct (fold_cases cfg [first] (set_queue w q1) true) as [_ (rq1 & Hl1 & Hs1)].
    change (fold_left (turn cfg) [first] (set_queue w q1, true))
      with (_process_batch cfg [first] (set_queue w q1)) in Hl1.
    destruct (_process_batch cfg [first] (set_queue w q1)) as [w1 ok].
    cbn [fst queue set_queue] in Hl1.
    destruct rest as [| c rest'].
    + exists rq1. cbn [fst]. split; [exact Hl1 | exact Hs1].
    + destruct ok.
      * destruct (fold_cases cfg (c :: rest') w1 true) as [_ (rq2 & Hl2 & Hs2)].
        exists (rq1 ++ rq2). cbn [fst].
        change (fold_left (turn cfg) (c :: rest') (w1, true))
          with (_process_batch cfg (c :: rest') w1) in Hl2.
        rewrite Hl2, Hl1, !map_app, <- app_assoc. split; [reflexivity |].
        change (first :: c :: rest') with ([first] ++ c :: rest').
        now apply subsequence_app.
      * destruct (requeue_all time_time cfg (c :: rest') w1) as (Hq' & _).
        exists (rq1 ++ map (fun c0 => (c0, enqueue_ready_at cfg (time_time (env w1)) None))
                           (c :: rest')).
        cbn [fst]. rewrite Hq', Hl1, !map_app, <- app_assoc, !map_map.
        split; [reflexivity |].
        change (first :: c :: rest') with ([first] ++ c :: rest').
        apply subsequence_app; [exact Hs1 |].
        cbn [fst]. rewrite map_id. apply subsequence_refl.
Qed.

(** X11.  A cycle never loses a record that is not ready.  When
    [read_ready] raises, the queue is left as it was; otherwise the queue
    after the cycle is the waiting records, in their order, followed by new
    records whose contents are among the extracted ones, each at most once
    and in the order of extraction. *)
Theorem cycle_keeps_waiting_records (cfg : Settings) (w : world) :
  let now := time_time (env w) in
  match fst (read_ready now (queue w)) with
  | Raise _ => queue (fst (cycle cfg w)) = queue w
  | Ok contents =>
      exists requeued : list (json * Z),
        lines_of (queue (fst (cycle cfg w)))
        = filter (waiting now) (lines_of (queue w)) ++ map stored requeued /\
        subsequence (map fst requeued) contents
  end.
Proof.
  exact (cycle_queue cfg w).
Qed.

(** X12.  A [Retry-After] header that holds a character which is neither
    a decimal digit, an underscore, a sign nor white space, such as an HTTP
    date, is ignored: after a transient failure the content is put back as
    a plain [enqueue] would. *)
Theorem retry_after_not_integer_is_ignored
    (cfg : Settings) (content payload : json) (response : LRSResponse)
    (env' : Env) (w : world) (all_ok : bool) (text : string) (c : N) :
  str_set (RETRY_SINK_FILE cfg) = false ->
  loads content = Ok payload ->
  save_statements payload (env w) = (Responded response, env') ->
  success response = false ->
  is_not_found (status response) (data response)
  || retryable_status (status response) = true ->
  retry_after response = Header (Some text) ->
  In c (code_points text) ->
  not_in_integer c = true ->
  retry_after_delay response = None /\
  queue (fst (process_one cfg content (w, all_ok)))
  = enqueue cfg (time_time env') content None (queue w).
Proof.
  intros Hlive Hloads Hsend Hfail Ht Hh Hin Hc.
  assert (Hd : retry_after_delay response = None).
  { unfold retry_after_delay. rewrite Hh.
    destruct (String.eqb text EmptyString); [reflexivity |].
    exact (int_of_str_rejects text c Hin Hc). }
  split; [exact Hd |].
  rewrite (process_one_live _ _ _ _ cfg content payload _ env' w all_ok Hlive Hloads Hsend).
  cbv zeta. rewrite Hfail. cbn [negb]. rewrite Ht, Hd. reflexivity.
Qed.

End WithEnvironment.

End WorkerLaws.

(** ** Laws of the loop of [run] *)

Module ScheduleLaws.

Import RetryQueue View QueueFacts WorkerFacts Worker Notions QueueLaws WorkerLaws Schedule.

Lemma split_colon_from_cons current text :
  exists part parts, split_colon_from current text = part :: parts.
Proof.
  revert current. induction text as [| c rest IH]; intros current; simpl; [eauto |].
  destruct (Ascii.eqb c ":"%char); eauto.
Qed.

Lemma no_colon_app a b :
  no_colon (a ++ b) = no_colon a && no_colon b.
Proof.
  induction a as [| c a IH]; simpl; [reflexivity |].
  now rewrite IH, andb_assoc.
Qed.

(** Joining the parts with colons gives the text back, and no part holds a
    colon. *)
Lemma split_colon_from_join text : forall current,
  no_colon current = true ->
  String.concat ":" (split_colon_from current text) = (current ++ text)%string /\
  forallb no_colon (split_colon_from current text) = true.
Proof.
  induction text as [| c rest IH]; intros current Hc; simpl.
  - rewrite string_app_nil, Hc. auto.
  - destruct (Ascii.eqb_spec c ":"%char) as [-> | Hne].
    + destruct (IH EmptyString eq_refl) as [Hj Hn].
      destruct (split_colon_from_cons EmptyString rest) as (part & parts & E).
      rewrite E in *. split.
      * cbn [String.concat] in Hj |- *. rewrite Hj. reflexivity.
      * cbn [forallb] in Hn |- *. rewrite Hc. exact Hn.
    + assert (Hc' : no_colon (current ++ String c EmptyString) = true).
      { rewrite no_colon_app, Hc. simpl.
        destruct (Ascii.eqb_spec c ":"%char); [contradiction | reflexivity]. }
      destruct (IH _ Hc') as [Hj Hn]. rewrite Hj, Hn, string_app_assoc. auto.
Qed.

Lemma split_colon_from_plain text : forall current,
  no_colon text = true ->
  split_colon_from current text = [(current ++ text)%string].
Proof.
  induction text as [| c rest IH]; intros current H; simpl.
  - now rewrite string_app_nil.
  - simpl in H. apply andb_true_iff in H as [Hc Hr]. apply negb_true_iff in Hc.
    rewrite Hc, (IH _ Hr), string_app_assoc. reflexivity.
Qed.

Lemma split_colon_from_colon a : forall current rest,
  no_colon a = true ->
  split_colon_from current (a ++ String ":"%char rest)
  = (current ++ a)%string :: split_colon_from EmptyString rest.
Proof.
  induction a as [| c a IH]; intros current rest H; simpl.
  - now rewrite string_app_nil.
  - simpl in H. apply andb_true_iff in H as [Hc Hr]. apply negb_true_iff in Hc.
    rewrite Hc, (IH _ _ Hr), string_app_assoc. reflexivity.
Qed.

(** X14.  [RETRY_DAILY_AT] is taken as an hour and a minute exactly when it
    is two texts around a single colon that [int] accepts; the two numbers
    are used as they are, whatever their range.  In every other case, and
    when the setting is absent, [run] works with 3 and 0. *)
Theorem daily_time_parses_two_integers (text : string) (hh mm : Z) :
  (parse_daily_at text = Some (hh, mm) <->
   exists hours minutes,
     text = (hours ++ ":" ++ minutes)%string /\
     no_colon hours = true /\ no_colon minutes = true /\
     int_of_str hours = Some hh /\ int_of_str minutes = Some mm) /\
  (forall cfg,
      RETRY_DAILY_AT cfg = Some text ->
      (parse_daily_at text = Some (hh, mm) -> daily_time cfg = (hh, mm)) /\
      (parse_daily_at text = None ->
         daily_time cfg = (3, 0) /\ format_error cfg = true)) /\
  (forall cfg, RETRY_DAILY_AT cfg = None -> daily_time cfg = (3, 0)).
Proof.
  split; [| split].
  - unfold parse_daily_at, split_colon. split.
    + destruct (split_colon_from_join text EmptyString eq_refl) as [Hj Hn].
      destruct (split_colon_from EmptyString text) as [| a [| b [| c l]]];
        try discriminate.
      destruct (int_of_str a) as [h |] eqn:Ea; [| discriminate].
      destruct (int_of_str b) as [m |] eqn:Eb; [| discriminate].
      intros [= <- <-]. exists a, b. cbn [String.concat forallb] in Hj, Hn.
      apply andb_true_iff in Hn as [Ha Hn]. apply andb_true_iff in Hn as [Hb _].
      simpl in Hj. auto.
    + intros (a & b & -> & Ha & Hb & Eh & Em).
      change (":" ++ b)%string with (String ":"%char b).
      rewrite (split_colon_from_colon a EmptyString b Ha).
      rewrite (split_colon_from_plain b EmptyString Hb).
      cbn [String.append]. now rewrite Eh, Em.
  - intros cfg Hcfg. unfold daily_time, format_error, daily_at. rewrite Hcfg.
    split; intros ->; auto.
  - intros cfg Hcfg. unfold daily_time, daily_at. rewrite Hcfg. reflexivity.
Qed.

(** An hour and a minute out of range are taken as they are. *)
Lemma daily_time_out_of_range_example :
  RETRY_DAILY_AT MoreExamples.out_of_range = Some "25:99"%string /\
  daily_time MoreExamples.out_of_range = (25, 99).
Proof.
  split; [reflexivity |].
  apply (proj1 (proj1 (proj2 (daily_time_parses_two_integers "25:99" 25 99))
                  MoreExamples.out_of_range eq_refl)).
  reflexivity.
Defined.

Section WithEnvironment.

Context {Env : Type}.
Variable time_time : Env -> Z.
Variable save_statements : json -> Env -> send_result * Env.
Variable json_loads : string -> option json.
Variable json_dumps : json -> string.
Variable stop_is_set : Env -> bool.
Variable sleep : Env -> Env.
Variable window_today : Z -> Z -> Env -> Z.
Context {backend : LRSBackend}.

Local Abbreviation cycle :=
  (Worker.cycle time_time save_statements json_loads json_dumps).
Local Abbreviation _process_batch :=
  (Worker._process_batch time_time save_statements json_loads json_dumps).
Local Abbreviation poll := (Schedule.poll stop_is_set sleep).
Local Abbreviation slept := (Schedule.slept sleep).
Local Abbreviation run_loop :=
  (Schedule.run_loop time_time save_statements json_loads json_dumps
                     stop_is_set sleep window_today).
Local Abbreviation run :=
  (Schedule.run time_time save_statements json_loads json_dumps
                stop_is_set sleep window_today).

Lemma poll_slept (n : nat) : forall e : Env,
  exists j, (j <= n)%nat /\ fst (poll n e) = slept j e.
Proof.
  induction n as [| n IH]; intros e; simpl.
  - exists 0%nat. auto.
  - destruct (stop_is_set e).
    + exists 0%nat. split; [lia | reflexivity].
    + destruct (IH (sleep e)) as (j & Hj & E). exists (S j). split; [lia | exact E].
Qed.

Lemma poll_stop (n : nat) : forall (e : Env) (i : nat),
  (i < n)%nat -> stop_is_set (slept i e) = true ->
  exists j, (j <= i)%nat /\ poll n e = (slept j e, true).
Proof.
  induction n as [| n IH]; intros e i Hi Hs; [lia |].
  simpl. destruct (stop_is_set e) eqn:E.
  - exists 0%nat. split; [lia | reflexivity].
  - destruct i as [| i]; [simpl in Hs; congruence |].
    destruct (IH (sleep e) i ltac:(lia) Hs) as (j & Hj & Hp).
    exists (S j). split; [lia | exact Hp].
Qed.

(** What holds of the world at the start of the loop, is kept by the passing
    of seconds and is kept by a cycle, holds when the loop ends or is cut. *)
Lemma run_loop_invariant (P : @world Env -> Prop) (cfg : Settings) (hh mm : Z) :
  (forall w j, P w -> P (set_env w (slept j (env w)))) ->
  (forall w, P w -> P (fst (cycle cfg w))) ->
  forall fuel w, P w -> P (fst (run_loop fuel hh mm cfg w)).
Proof.
  intros Hsleep Hcycle. induction fuel as [| fuel IH]; intros w Hw; [exact Hw |].
  cbn [Schedule.run_loop]. destruct (stop_is_set (env w)); [exact Hw |].
  destruct (poll_slept (Z.to_nat (sleep_for (window_today hh mm (env w))
                                            (time_time (env w)))) (env w))
    as (j & _ & Ej).
  destruct (poll _ (env w)) as [e stopped]. cbn [fst] in Ej. subst e.
  pose proof (Hsleep w j Hw) as Hw2.
  destruct stopped; [exact Hw2 |].
  pose proof (Hcycle _ Hw2) as Hw3.
  destruct (cycle cfg (set_env w (slept j (env w)))) as [w3 next]. cbn [fst] in Hw3.
  destruct next; [apply IH, Hw3 |].
  destruct (poll_slept 60 (env w3)) as (j' & _ & Ej').
  destruct (poll 60 (env w3)) as [e' stopped']. cbn [fst] in Ej'. subst e'.
  destruct stopped'; [apply Hsleep, Hw3 | apply IH, Hsleep, Hw3].
Qed.

Lemma cycle_sink_grows cfg (w : @world Env) :
  exists suffix, sink (fst (cycle cfg w)) = (sink w ++ suffix)%string.
Proof.
  unfold Worker.cycle.
  destruct (read_ready (time_time (env w)) (queue w)) as [[contents | e] q1].
  - destruct contents as [| first rest].
    + exists EmptyString. cbn. now rewrite string_app_nil.
    + cbn [firstn skipn].
      destruct (process_batch_sink_grows time_time save_statements json_loads
                  json_dumps cfg [first] (set_queue w q1, true)) as [s1 H1].
      change (fold_left _ [first] (set_queue w q1, true))
        with (_process_batch cfg [first] (set_queue w q1)) in H1.
      destruct (_process_batch cfg [first] (set_queue w q1)) as [w1 ok].
      cbn [fst sink set_queue] in H1.
      destruct rest as [| c rest']; [exists s1; exact H1 |].
      destruct ok; cbn [fst].
      * destruct (process_batch_sink_grows time_time save_statements json_loads
                    json_dumps cfg (c :: rest') (w1, true)) as [s2 H2].
        exists (s1 ++ s2)%string. cbn [fst] in H2.
        unfold Worker._process_batch. rewrite H2, H1. apply string_app_assoc.
      * destruct (requeue_all time_time cfg (c :: rest') w1) as (_ & _ & Hs & _).
        exists s1. rewrite Hs. exact H1.
  - exists EmptyString. cbn. now rewrite string_app_nil.
Qed.

Lemma cycle_blocked cfg (w : @world Env) e :
  first_crash (lines_of (queue w)) = Some e ->
  cycle cfg w = (logger w (ExceptionWorker e), Backoff).
Proof.
  intros Hc. unfold Worker.cycle. rewrite read_ready_any, Hc.
  unfold set_queue. now rewrite world_eta.
Qed.

Lemma slept_add (i j : nat) : forall e : Env, slept i (slept j e) = slept (j + i) e.
Proof.
  induction j as [| j IH]; intros e; simpl; [reflexivity | apply IH].
Qed.

Lemma poll_quiet (n : nat) : forall e : Env,
  (forall i, (i < n)%nat -> stop_is_set (slept i e) = false) ->
  poll n e = (slept n e, false).
Proof.
  induction n as [| n IH]; intros e H; [reflexivity |].
  cbn [Schedule.poll Schedule.slept].
  pose proof (H 0%nat ltac:(lia)) as H0. cbn [Schedule.slept] in H0. rewrite H0.
  apply IH. intros i Hi.
  apply (H (S i)). lia.
Qed.

Lemma time_slept (n : nat) : forall e : Env,
  (forall e', time_time (sleep e') = time_time e' + 1) ->
  time_time (slept n e) = time_time e + Z.of_nat n.
Proof.
  induction n as [| n IH]; intros e H.
  - simpl. lia.
  - cbn [Schedule.slept]. rewrite (IH _ H), H. lia.
Qed.

(** The world in which the loop of [run] starts: a format error of
    [RETRY_DAILY_AT] has made one line of the log, and nothing else. *)
Lemma run_start (fuel : nat) (cfg : Settings) (w : @world Env) :
  exists w0 : @world Env,
    run fuel cfg w = run_loop fuel (fst (daily_time cfg)) (snd (daily_time cfg)) cfg w0 /\
    queue w0 = queue w /\ sink w0 = sink w /\ env w0 = env w /\
    log w0 = log w ++ (if format_error cfg then [ErrorDailyAtFormat] else []).
Proof.
  unfold Schedule.run. cbv zeta.
  exists (if format_error cfg then logger w ErrorDailyAtFormat else w).
  split; [destruct (daily_time cfg); reflexivity |].
  destruct (format_error cfg); cbn [logger queue sink env log];
    rewrite ?app_nil_r; auto.
Qed.

(** X13.  The wait of [run].  When each [time.sleep(1)] takes a second of
    the clock, today's window is within a day of the current time and the
    stop event is not set during the wait, the loop sleeps for more than
    zero and at most 86400 seconds and starts its cycle exactly at a
    window: today's when it is still ahead, tomorrow's otherwise. *)
Theorem run_wakes_at_window (hh mm : Z) (cfg : Settings) (w : @world Env) :
  let target := window_today hh mm (env w) in
  let now_ts := time_time (env w) in
  let seconds := Z.to_nat (sleep_for target now_ts) in
  let at_window := set_env w (slept seconds (env w)) in
  (forall e, time_time (sleep e) = time_time e + 1) ->
  now_ts - 86400 < target <= now_ts + 86400 ->
  (forall i, (i < seconds)%nat -> stop_is_set (slept i (env w)) = false) ->
  0 < Z.of_nat seconds <= 86400 /\
  time_time (env at_window) = (if target <=? now_ts then target + 86400 else target) /\
  (snd (cycle cfg at_window) = WaitingForWindow ->
   run_loop 1 hh mm cfg w = (fst (cycle cfg at_window), Looping)).
Proof.
  cbv zeta. intros Hclock Hday Hquiet.
  pose proof (sleep_for_reaches_next_window (window_today hh mm (env w))
                (time_time (env w))) as [Hpos Hsleep].
  destruct (Hsleep Hday) as (Hbound & Hahead & Hpast).
  split; [rewrite Z2Nat.id; lia |]. split.
  - cbn [set_env env]. rewrite (time_slept _ _ Hclock), Z2Nat.id by lia.
    destruct (Z.leb_spec (window_today hh mm (env w)) (time_time (env w)));
      [apply Hpast | apply Hahead]; lia.
  - intros Hnext. cbn [Schedule.run_loop].
    pose proof (Hquiet 0%nat ltac:(lia)) as H0. cbn [Schedule.slept] in H0.
    rewrite H0, (poll_quiet _ _ Hquiet).
    destruct (cycle cfg _) as [w' next]. cbn [snd] in Hnext. subst next.
    reflexivity.
Qed.

(** X15.  Cancellation.  When the stop event is set at the start of a turn
    of the loop, or becomes set at some second of the wait for the window,
    [run] returns within that many seconds, before it reads the queue: the
    queue, the sink and the log are as they were. *)
Theorem run_returns_when_stopped (fuel : nat) (hh mm : Z) (cfg : Settings)
    (w : @world Env) (i : nat) :
  (i < Nat.max 1 (Z.to_nat (sleep_for (window_today hh mm (env w))
                                      (time_time (env w)))))%nat ->
  stop_is_set (slept i (env w)) = true ->
  exists j,
    (j <= i)%nat /\
    run_loop (S fuel) hh mm cfg w = (set_env w (slept j (env w)), Returned).
Proof.
  intros Hi Hs. cbn [Schedule.run_loop].
  destruct (stop_is_set (env w)) eqn:E.
  - exists 0%nat. split; [lia |]. unfold set_env. cbn [Schedule.slept].
    now rewrite world_eta.
  - assert (Hi' : (i < Z.to_nat (sleep_for (window_today hh mm (env w))
                                           (time_time (env w))))%nat).
    { destruct i as [| i]; [simpl in Hs; congruence | lia]. }
    destruct (poll_stop _ (env w) i Hi' Hs) as (j & Hj & Hp).
    exists j. split; [exact Hj |]. rewrite Hp. reflexivity.
Qed.

(** X16.  Whatever the number of turns, [run] only adds text at the end of
    the sink: what the sink held is never removed or rewritten. *)
Theorem run_only_appends_to_sink (fuel : nat) (cfg : Settings) (w : @world Env) :
  exists suffix, sink (fst (run fuel cfg w)) = (sink w ++ suffix)%string.
Proof.
  destruct (run_start fuel cfg w) as (w0 & -> & _ & Hs & _).
  apply (run_loop_invariant
           (fun w' => exists suffix, sink w' = (sink w ++ suffix)%string)).
  - intros w' j H. exact H.
  - intros w' [s H]. destruct (cycle_sink_grows cfg w') as [s' H'].
    exists (s ++ s')%string. rewrite H', H. apply string_app_assoc.
  - exists EmptyString. now rewrite string_app_nil.
Qed.

(** X17.  A stored line that holds JSON which is not a well-formed record
    stops the worker from doing anything: whatever the number of turns of
    [run], the queue and the sink stay as they were, nothing is sent (only
    seconds have passed outside), and the log has only gained the line of
    the format error of [RETRY_DAILY_AT], if there is one, and lines of the
    same exception. *)
Theorem run_blocked_by_unreadable_record (fuel : nat) (cfg : Settings)
    (w : @world Env) (lines : list stored_line) (v : json) :
  queue w = Some lines ->
  In (Parsed v) lines ->
  well_formed (Parsed v) = false ->
  exists e seconds times,
    queue (fst (run fuel cfg w)) = Some lines /\
    sink (fst (run fuel cfg w)) = sink w /\
    env (fst (run fuel cfg w)) = slept seconds (env w) /\
    log (fst (run fuel cfg w))
    = log w ++ (if format_error cfg then [ErrorDailyAtFormat] else [])
            ++ repeat (ExceptionWorker e) times.
Proof.
  intros Hq Hin Hwf.
  assert (Hc : exists e, first_crash lines = Some e).
  { destruct (first_crash lines) as [e |] eqn:E; [eauto |].
    apply first_crash_none in E.
    pose proof (proj1 (forallb_forall _ _) E _ Hin) as H.
    unfold readable in H. rewrite Hwf in H. discriminate. }
  destruct Hc as [e He]. exists e.
  destruct (run_start fuel cfg w) as (w0 & -> & Hq0 & Hs0 & He0 & Hl0).
  set (hh := fst (daily_time cfg)). set (mm := snd (daily_time cfg)).
  assert (H : exists seconds times,
             queue (fst (run_loop fuel hh mm cfg w0)) = Some lines /\
             sink (fst (run_loop fuel hh mm cfg w0)) = sink w0 /\
             env (fst (run_loop fuel hh mm cfg w0)) = slept seconds (env w0) /\
             log (fst (run_loop fuel hh mm cfg w0))
             = log w0 ++ repeat (ExceptionWorker e) times).
  { apply (run_loop_invariant
             (fun w' => exists seconds times,
                  queue w' = Some lines /\ sink w' = sink w0 /\
                  env w' = slept seconds (env w0) /\
                  log w' = log w0 ++ repeat (ExceptionWorker e) times)).
    - intros w' j (n & k & H1 & H2 & H3 & H4). exists (n + j)%nat, k.
      cbn [set_env queue sink env log]. rewrite H3, slept_add. auto.
    - intros w' (n & k & H1 & H2 & H3 & H4).
      rewrite (cycle_blocked cfg w' e) by (rewrite H1; exact He).
      exists n, (S k). cbn [fst logger queue sink env log].
      rewrite H4, <- app_assoc, repeat_snoc. auto.
    - exists 0%nat, 0%nat. cbn [repeat Schedule.slept]. rewrite app_nil_r.
      rewrite Hq0, Hq. auto. }
  destruct H as (seconds & times & H1 & H2 & H3 & H4).
  exists seconds, times. rewrite H1, H2, H3, H4, Hs0, He0, Hl0, <- app_assoc. auto.
Qed.

(** X18.  A well-formed record whose content is missing or false stays in
    the queue for as long as [run] goes on. *)
Theorem run_keeps_record_without_content (fuel : nat) (cfg : Settings)
    (w : @world Env) (line : stored_line) :
  well_formed line = true ->
  has_content line = false ->
  In line (lines_of (queue w)) ->
  In line (lines_of (queue (fst (run fuel cfg w)))).
Proof.
  intros Hwf Hnc Hin. destruct (run_start fuel cfg w) as (w0 & -> & Hq0 & _).
  rewrite <- Hq0 in Hin.
  apply (run_loop_invariant (fun w' => In line (lines_of (queue w')))).
  - intros w' j H. exact H.
  - intros w' H.
    pose proof (cycle_queue time_time save_statements json_loads json_dumps cfg w')
      as Hcycle. cbv zeta in Hcycle.
    destruct (fst (read_ready (time_time (env w')) (queue w'))).
    + destruct Hcycle as (requeued & -> & _). apply in_or_app. left.
      apply filter_In. split; [exact H |].
      unfold waiting, ready. now rewrite Hwf, Hnc, andb_false_r.
    + now rewrite Hcycle.
  - exact Hin.
Qed.

End WithEnvironment.

End ScheduleLaws.

(** ** The laws on the inputs of the examples *)

Module LawExamples.

Import RetryQueue View Worker Notions Schedule Examples MoreExamples.
Import WorkerLaws ScheduleLaws.

Lemma batch_success_example :
  snd (run_batch live [JStr "[1]"; JStr "[2]"] accepting_world) = true /\
  queue (fst (run_batch live [JStr "[1]"; JStr "[2]"] accepting_world))
    = queue accepting_world.
Proof.
  split; [reflexivity |].
  exact (proj1 (batch_success_leaves_queue
                  time_time save_statements json_loads json_dumps
                  (backend := LRSBackendBase)
                  live [JStr "[1]"; JStr "[2]"] accepting_world eq_refl)).
Defined.

Lemma successful_probe_example :
  (read_ready (time_time (env accepting_world)) (queue accepting_world)
     = (Ok [JStr "[1]"; JStr "[2]"; JStr "[3]"], Some []) /\
   snd (run_batch live [JStr "[1]"] (set_queue accepting_world (Some []))) = true) /\
  run_cycle live accepting_world
    = (fst (run_batch live [JStr "[1]"; JStr "[2]"; JStr "[3]"]
                      (set_queue accepting_world (Some []))),
       WaitingForWindow).
Proof.
  split; [split; reflexivity |].
  exact (successful_probe_is_one_batch
           time_time save_statements json_loads json_dumps
           (backend := LRSBackendBase)
           live accepting_world (JStr "[1]") [JStr "[2]"; JStr "[3]"] (Some [])
           eq_refl eq_refl).
Defined.

Lemma sink_batch_example :
  (str_set (RETRY_SINK_FILE to_sink) = true /\
   forallb writable
     (flat_map (sink_entries json_loads json_dumps) ["[1, 2]"; "oops"]%string) = true) /\
  sink (fst (run_batch to_sink (map JStr ["[1, 2]"; "oops"]%string) busy_world))
    = unlines ["1"; "2"; "oops"]%string.
Proof.
  split; [split; reflexivity |].
  exact (f_equal (fun r => sink (fst r))
           (proj2 (sink_batch_archives_everything
                     time_time save_statements json_loads json_dumps
                     (backend := LRSBackendBase)
                     to_sink busy_world eq_refl)
                  ["[1, 2]"; "oops"]%string eq_refl)).
Defined.

(** A write that raises in the middle of a list: the first element is
    written, then the handler writes the content as it is, and the batch
    goes on as after any save. *)
Lemma sink_write_failure_example :
  json_loads surrogate_list_text = Some (JList [JStr "a"; JStr lone_surrogate]) /\
  encodable (json_dumps (JStr lone_surrogate) ++ line_feed) = false /\
  run_one to_sink (JStr surrogate_list_text) (busy_world, true)
  = (mkWorld (queue busy_world)
             (quoted "a" ++ line_feed ++ surrogate_list_text ++ line_feed)
             (env busy_world) [InfoSinkSaved], true).
Proof.
  vm_compute. repeat split.
Qed.

Lemma sink_cycle_example :
  (str_set (RETRY_SINK_FILE to_sink) = true /\
   queue rejecting_world = three_ready /\
   forallb readable (lines_of three_ready) = true /\
   map content_of (filter (ready (time_time (env rejecting_world)))
                          (lines_of three_ready))
   = map JStr ["[1]"; "[2]"; "[3]"]%string /\
   forallb writable
     (flat_map (sink_entries json_loads json_dumps) ["[1]"; "[2]"; "[3]"]%string)
   = true) /\
  sink (fst (run_cycle to_sink rejecting_world)) = unlines ["1"; "2"; "3"]%string /\
  queue (fst (run_cycle to_sink rejecting_world)) = Some [].
Proof.
  split; [repeat split |].
  split.
  - exact (f_equal (fun r => sink (fst r))
             (sink_cycle_archives_ready
                time_time save_statements json_loads json_dumps
                (backend := LRSBackendBase)
                to_sink rejecting_world (lines_of three_ready)
                ["[1]"; "[2]"; "[3]"]%string
                eq_refl eq_refl eq_refl eq_refl eq_refl)).
  - exact (f_equal (fun r => queue (fst r))
             (sink_cycle_archives_ready
                time_time save_statements json_loads json_dumps
                (backend := LRSBackendBase)
                to_sink rejecting_world (lines_of three_ready)
                ["[1]"; "[2]"; "[3]"]%string
                eq_refl eq_refl eq_refl eq_refl eq_refl)).
Defined.

Lemma failed_probe_queue_example :
  (str_set (RETRY_SINK_FILE live) = false /\
   read_ready (time_time (env busy_three_world)) (queue busy_three_world)
     = (Ok [JStr "[1]"; JStr "[2]"; JStr "[3]"], Some []) /\
   loads json_loads (JStr "[1]") = Ok (JList [JInt 1]) /\
   save_statements (JList [JInt 1]) (env busy_three_world)
     = (Responded unavailable_retry_after_120, (101, [])) /\
   failed (Responded unavailable_retry_after_120) = true) /\
  lines_of (queue (fst (run_cycle live busy_three_world)))
    = [stored (JStr "[1]", 221); stored (JStr "[2]", 101); stored (JStr "[3]", 101)].
Proof.
  split; [repeat split |].
  exact (proj1 (failed_probe_queue
                  time_time save_statements json_loads json_dumps
                  (backend := LRSBackendBase)
                  live busy_three_world (JStr "[1]") [JStr "[2]"; JStr "[3]"] (Some [])
                  (JList [JInt 1]) (Responded unavailable_retry_after_120) (101, [])
                  eq_refl eq_refl eq_refl eq_refl eq_refl)).
Defined.

Lemma retry_after_date_example :
  (str_set (RETRY_SINK_FILE live_periodic) = false /\
   loads json_loads (JStr "[1]") = Ok (JList [JInt 1]) /\
   save_statements (JList [JInt 1]) (env date_world)
     = (Responded unavailable_retry_after_date, (1001, [])) /\
   success unavailable_retry_after_date = false /\
   retry_after unavailable_retry_after_date = Header (Some http_date) /\
   In 87%N (code_points http_date) /\
   not_in_integer 87 = true) /\
  queue (fst (run_one live_periodic (JStr "[1]") (date_world, true)))
    = Some [stored (JStr "[1]", 1601)].
Proof.
  assert (Hin : In 87%N (code_points http_date)) by (vm_compute; left; reflexivity).
  split; [repeat split; exact Hin |].
  exact (proj2 (retry_after_not_integer_is_ignored
                  time_time save_statements json_loads json_dumps
                  (backend := LRSBackendBase)
                  live_periodic (JStr "[1]") (JList [JInt 1])
                  unavailable_retry_after_date (1001, []) date_world true
                  http_date 87%N
                  eq_refl eq_refl eq_refl eq_refl eq_refl eq_refl Hin eq_refl)).
Defined.

Lemma run_wakes_at_window_example :
  ((forall e, time_time (sleep e) = time_time e + 1) /\
   (time_time (env early_world) - 86400 < window_today 3 0 (env early_world)
    <= time_time (env early_world) + 86400) /\
   (forall i, (i < Z.to_nat (sleep_for (window_today 3 0 (env early_world))
                                       (time_time (env early_world))))%nat ->
              no_stop (slept sleep i (env early_world)) = false)) /\
  time_time (env (set_env early_world (slept sleep 10 (env early_world)))) = 2000.
Proof.
  assert (H1 : forall e, time_time (sleep e) = time_time e + 1)
    by (intros e; reflexivity).
  assert (H2 : time_time (env early_world) - 86400 < window_today 3 0 (env early_world)
               <= time_time (env early_world) + 86400)
    by (vm_compute; split; [reflexivity | discriminate]).
  assert (H3 : forall i, (i < Z.to_nat (sleep_for (window_today 3 0 (env early_world))
                                                  (time_time (env early_world))))%nat ->
                         no_stop (slept sleep i (env early_world)) = false)
    by (intros i _; reflexivity).
  split; [split; [exact H1 | split; [exact H2 | exact H3]] |].
  exact (proj1 (proj2 (run_wakes_at_window
                         time_time save_statements json_loads json_dumps
                         no_stop sleep window_today (backend := LRSBackendBase)
                         3 0 live early_world H1 H2 H3))).
Defined.

Lemma run_returns_when_stopped_example :
  ((3 < Nat.max 1 (Z.to_nat (sleep_for (window_today 3 0 (env idle_world))
                                       (time_time (env idle_world)))))%nat /\
   stop_is_set (slept sleep 3 (env idle_world)) = true) /\
  exists j,
    (j <= 3)%nat /\
    run_loop_for 1 3 0 live idle_world
    = (set_env idle_world (slept sleep j (env idle_world)), Returned).
Proof.
  assert (H : (3 < Nat.max 1 (Z.to_nat (sleep_for (window_today 3 0 (env idle_world))
                                                  (time_time (env idle_world)))))%nat).
  { vm_compute. lia. }
  split; [split; [exact H | reflexivity] |].
  exact (run_returns_when_stopped
           time_time save_statements json_loads json_dumps
           stop_is_set sleep window_today (backend := LRSBackendBase)
           0 3 0 live idle_world 3 H eq_refl).
Defined.

Lemma run_blocked_example :
  (queue blocked_world = Some [Parsed (record (JStr "[1]") 0); stray_line] /\
   In stray_line [Parsed (record (JStr "[1]") 0); stray_line] /\
   well_formed stray_line = false) /\
  exists e seconds times,
    queue (fst (run_for 3 with_seconds blocked_world))
      = Some [Parsed (record (JStr "[1]") 0); stray_line] /\
    sink (fst (run_for 3 with_seconds blocked_world)) = sink blocked_world /\
    env (fst (run_for 3 with_seconds blocked_world))
      = slept sleep seconds (env blocked_world) /\
    log (fst (run_for 3 with_seconds blocked_world))
      = log blocked_world ++ [ErrorDailyAtFormat] ++ repeat (ExceptionWorker e) times.
Proof.
  assert (H : In stray_line [Parsed (record (JStr "[1]") 0); stray_line]).
  { right. left. reflexivity. }
  split; [split; [reflexivity | split; [exact H | reflexivity]] |].
  exact (run_blocked_by_unreadable_record
           time_time save_statements json_loads json_dumps
           stop_is_set sleep window_today (backend := LRSBackendBase)
           3 with_seconds blocked_world _ (JInt 42) eq_refl H eq_refl).
Defined.

Lemma run_keeps_record_example :
  (well_formed no_content_line = true /\
   has_content no_content_line = false /\
   In no_content_line (lines_of (queue keeper_world))) /\
  In no_content_line (lines_of (queue (fst (run_for 2 live keeper_world)))).
Proof.
  assert (H : In no_content_line (lines_of (queue keeper_world))).
  { cbn. do 3 right. left. reflexivity. }
  split; [split; [reflexivity | split; [reflexivity | exact H]] |].
  exact (run_keeps_record_without_content
           time_time save_statements json_loads json_dumps
           stop_is_set sleep window_today (backend := LRSBackendBase)
           2 live keeper_world no_content_line eq_refl eq_refl H).
Defined.

End LawExamples.

(** ** Laws of the monitor *)

Module MonitorLaws.

Import RetryQueue View QueueFacts WorkerFacts Worker Notions QueueLaws WorkerLaws Monitor.

Lemma count_ready_view t lines : forall counter,
  forallb countable lines = true ->
  count_ready t lines counter
  = Ok (counter + List.length (filter (counted t) lines))%nat.
Proof.
  induction lines as [| line rest IH]; intros counter H.
  - simpl. f_equal. lia.
  - simpl in H. apply andb_true_iff in H as [Hl Hr].
    destruct line as [| raw | raw e | v]; cbn [count_ready filter counted];
      try (apply IH, Hr); [discriminate |].
    destruct v; try discriminate. cbn [get bind].
    unfold countable in Hl.
    destruct (age_error _); [discriminate |].
    destruct (le_time _ t); rewrite (IH _ Hr); f_equal; simpl; lia.
Qed.

Lemma count_ready_raises t lines : forall counter,
  forallb countable lines = false ->
  exists e, count_ready t lines counter = Raise e.
Proof.
  induction lines as [| line rest IH]; intros counter H; [discriminate |].
  simpl in H. apply andb_false_iff in H.
  destruct line as [| raw | raw e | v]; cbn [count_ready].
  - destruct H as [H | H]; [discriminate | apply IH, H].
  - destruct H as [H | H]; [discriminate | apply IH, H].
  - eexists; reflexivity.
  - destruct v; cbn [get bind]; try (eexists; reflexivity).
    destruct (age_error _) eqn:E; [eexists; reflexivity |].
    destruct H as [H | H]; [unfold countable in H; rewrite E in H; discriminate |].
    destruct (le_time _ t); apply IH, H.
Qed.






Lemma readlines_from_entry (e : string) : forall current rest,
  single_line e = true ->
  readlines_from current (e ++ line_feed ++ rest)
  = (current ++ e)%string :: readlines_from EmptyString rest.
Proof.
  induction e as [| c e IH]; intros current rest H.
  - simpl. now rewrite string_app_nil.
  - simpl in H. apply andb_true_iff in H as [H He].
    apply andb_true_iff in H as [Hc Hr].
    apply negb_true_iff in Hc, Hr.
    cbn [String.append readlines_from]. rewrite Hc, Hr, (IH _ _ He).
    now rewrite string_app_assoc.
Qed.

Lemma readlines_unlines (entries : list string) :
  forallb single_line entries = true ->
  readlines (unlines entries) = entries.
Proof.
  unfold readlines. induction entries as [| e rest IH]; intros H; [reflexivity |].
  simpl in H. apply andb_true_iff in H as [He Hr].
  rewrite unlines_cons, (readlines_from_entry e _ _ He), (IH Hr). reflexivity.
Qed.




(** X20.  [get_queue_stats] returns exactly when every line of the queue
    file is blank, is not JSON, or holds a JSON object whose [ready_at] is
    absent or a number that a float can meet; otherwise the exception
    escapes and no statistics are given.  A line on which [json.loads]
    raises another exception than a decode error is such a case, and so is
    a record whose [ready_at] is the text of an integer, although
    [read_ready] skips the one and takes the other as well formed. *)
Theorem monitor_returns_iff_countable (current_time : Q) (q : queue_file)
    (sink_file : string) :
  ((exists stats, get_queue_stats current_time q sink_file = Ok stats) <->
   forallb countable (lines_of q) = true) /\
  (forall fields text z,
      assoc_get "ready_at" fields = Some (JStr text) ->
      int_of_str text = Some z ->
      well_formed (Parsed (JObj fields)) = true /\
      countable (Parsed (JObj fields)) = false) /\
  (forall raw e, readable (Unloadable raw e) = true /\
                 countable (Unloadable raw e) = false).
Proof.
  split; [| split; [| intros raw e; split; reflexivity]].
  - unfold get_queue_stats. destruct q as [lines |]; cbn [lines_of].
    + destruct (forallb countable lines) eqn:E.
      * rewrite (count_ready_view _ _ _ E). cbn [bind].
        split; [reflexivity | eauto].
      * destruct (count_ready_raises current_time lines 0%nat E) as [e ->].
        cbn [bind]. split; [intros [stats H]; discriminate | discriminate].
    + cbn [bind forallb]. split; [reflexivity | eauto].
  - intros fields text z Hf Hz. unfold well_formed, countable. simpl.
    now rewrite Hf; simpl; rewrite Hz.
Qed.

Section WithEnvironment.

Context {Env : Type}.
Variable time_time : Env -> Z.
Variable save_statements : json -> Env -> send_result * Env.
Variable json_loads : string -> option json.
Variable json_dumps : json -> string.
Context {backend : LRSBackend}.

Local Abbreviation _process_batch :=
  (Worker._process_batch time_time save_statements json_loads json_dumps).
Local Abbreviation sink_entries := (Notions.sink_entries json_loads json_dumps).

(** X21.  The worker and the monitor on the sink.  When the sink holds
    whole lines and the entries written hold no line break and can all be
    written (none holds a lone surrogate), a batch of content strings in
    sink mode raises the monitor's [sink_records] by the number of entries:
    one per element of a list, one per other content. *)
Theorem sink_records_grow_by_entries (cfg : Settings) (texts : list string)
    (w : @world Env) (before : list string) :
  str_set (RETRY_SINK_FILE cfg) = true ->
  sink w = unlines before ->
  forallb single_line before = true ->
  forallb single_line (flat_map sink_entries texts) = true ->
  forallb writable (flat_map sink_entries texts) = true ->
  List.length (readlines (sink w)) = List.length before /\
  List.length (readlines (sink (fst (_process_batch cfg (map JStr texts) w))))
  = (List.length before + List.length (flat_map sink_entries texts))%nat /\
  forall current_time q stats,
    get_queue_stats current_time q
      (sink (fst (_process_batch cfg (map JStr texts) w))) = Ok stats ->
    sink_records stats
    = (List.length before + List.length (flat_map sink_entries texts))%nat.
Proof.
  intros Hsink Hbefore H1 H2 Hw. unfold Worker._process_batch.
  rewrite (sink_fold time_time save_statements json_loads json_dumps
             cfg texts w true Hsink Hw).
  cbn [fst sink]. rewrite Hbefore, <- unlines_app.
  assert (H : forallb single_line (before ++ flat_map sink_entries texts) = true).
  { now rewrite forallb_app, H1, H2. }
  rewrite !readlines_unlines by assumption. rewrite length_app.
  split; [reflexivity |]. split; [reflexivity |].
  intros t q stats Hs. unfold get_queue_stats in Hs.
  destruct (match q with Some lines => count_ready t lines 0 | None => Ok 0%nat end);
    [| discriminate].
  cbn [bind] in Hs. injection Hs as <-. cbn [sink_records].
  rewrite readlines_unlines by assumption. apply length_app.
Qed.

End WithEnvironment.

Import Examples MoreExamples.


Lemma monitor_raises_example :
  (assoc_get "ready_at" [("content"%string, JStr "[1]"); ("ready_at"%string, JStr "120")]
     = Some (JStr "120") /\
   int_of_str "120" = Some 120) /\
  well_formed text_ready_at_line = true /\
  countable text_ready_at_line = false.
Proof.
  split; [split; reflexivity |].
  exact (proj1 (proj2 (monitor_returns_iff_countable 10 None EmptyString))
           [("content"%string, JStr "[1]"); ("ready_at"%string, JStr "120")]
           "120"%string 120 eq_refl eq_refl).
Defined.

Lemma sink_records_example :
  (str_set (RETRY_SINK_FILE to_sink) = true /\
   sink busy_world = unlines [] /\
   forallb single_line [] = true /\
   forallb single_line
     (flat_map (Notions.sink_entries json_loads json_dumps) ["[1, 2]"; "oops"]%string)
   = true /\
   forallb writable
     (flat_map (Notions.sink_entries json_loads json_dumps) ["[1, 2]"; "oops"]%string)
   = true) /\
  List.length (readlines (sink (fst (run_batch to_sink
                                       (map JStr ["[1, 2]"; "oops"]%string)
                                       busy_world))))
  = 3%nat.
Proof.
  split; [repeat split |].
  exact (proj1 (proj2 (sink_records_grow_by_entries
                         time_time save_statements json_loads json_dumps
                         (backend := LRSBackendBase)
                         to_sink ["[1, 2]"; "oops"]%string busy_world []
                         eq_refl eq_refl eq_refl eq_refl eq_refl))).
Defined.

End MonitorLaws.
